(** * A shallow embedding of [book.py]: the Book record, its issue/return
    transitions, its dictionary form, and the JSON backed LibraryInventory.

    Python values are dynamically typed: a [Book] stores whatever it is
    given, and [Book.from_dict] stores whatever the decoded JSON record
    holds.  The embedding therefore keeps the fields of a book as values of
    the type [value] of JSON shaped Python data, and makes every raising
    operation return a [result]. *)

From Stdlib Require Import ZArith Ascii String.
From stdpp Require Import base option list gmap strings.

Local Open Scope string_scope.
Local Open Scope list_scope.
Local Set Warnings "-register-all".

(** ** Python values *)

(** The values [json.load] can return, which are also the values the
    program ever stores in a book.  A [str] is a sequence of code points
    below 256; a float is kept as its 64 bit pattern, since the program
    never computes with one; a [dict] keeps its items in insertion order,
    the first binding of a key being the one a subscript finds. *)
Inductive value : Type :=
  | VNone
  | VBool (b : bool)
  | VInt (n : Z)
  | VFloat (bits : Z)
  | VStr (s : string)
  | VList (xs : list value)
  | VDict (items : list (string * value)).

(** The exceptions the program can meet; all of them derive from Python's
    [Exception], so [except Exception] catches each. *)
Inductive exn : Type :=
  | KeyError (key : string)
  | TypeError
  | AttributeError
  | ValueError
  | OSError.

Inductive result (A : Type) : Type :=
  | Ok (a : A)
  | Raise (e : exn).
Arguments Ok {A} a.
Arguments Raise {A} e.

Definition rbind {A B} (r : result A) (k : A -> result B) : result B :=
  match r with
  | Ok a => k a
  | Raise e => Raise e
  end.

Notation "x <-! r ; k" := (rbind r (fun x => k))
  (at level 100, r at next level, right associativity, only parsing).

(** [[f(x) for x in xs]]: the elements are evaluated left to right and the
    first exception ends the comprehension. *)
Fixpoint rmap {A B} (f : A -> result B) (xs : list A) : result (list B) :=
  match xs with
  | [] => Ok []
  | x :: xs' => y <-! f x; ys <-! rmap f xs'; Ok (y :: ys)
  end.

(** [[x for x in xs if p(x)]], with a test that may raise. *)
Fixpoint rfilter {A} (p : A -> result bool) (xs : list A) : result (list A) :=
  match xs with
  | [] => Ok []
  | x :: xs' =>
      keep <-! p x; ys <-! rfilter p xs';
      Ok (if keep : bool then x :: ys else ys)
  end.

(** [v == s] for a [str] [s]: equal strings compare equal, and a value of
    any other type is different from every string. *)
Definition eq_str (v : value) (s : string) : bool :=
  match v with
  | VStr t => String.eqb t s
  | _ => false
  end.

(** The first binding of [key] in the items of a dict. *)
Fixpoint dict_get (items : list (string * value)) (key : string) : option value :=
  match items with
  | [] => None
  | (k, v) :: rest => if String.eqb k key then Some v else dict_get rest key
  end.

(** [data[key]] for a [str] key: a dict answers or raises [KeyError]; a
    [str] or a list wants integer indices and every other value is not
    subscriptable, which are [TypeError]s. *)
Definition getitem (data : value) (key : string) : result value :=
  match data with
  | VDict items =>
      match dict_get items key with
      | Some v => Ok v
      | None => Raise (KeyError key)
      end
  | _ => Raise TypeError
  end.

(** [for x in data]: a list yields its elements, a dict its keys, a [str]
    its one character strings; nothing else is iterable. *)
Definition chars (s : string) : list value :=
  (fun c => VStr (String c EmptyString)) <$> list_ascii_of_string s.

Definition iterate (data : value) : result (list value) :=
  match data with
  | VList xs => Ok xs
  | VDict items => Ok ((fun kv => VStr kv.1) <$> items)
  | VStr s => Ok (chars s)
  | _ => Raise TypeError
  end.

(** ** Strings: [str.lower] and [in] *)

(** [str.lower] on code points below 256: the upper case letters are
    [A]..[Z], and in the Latin-1 block U+00C0..U+00DE without the
    multiplication sign U+00D7; each is 32 below its lower case form. *)
Definition is_upper (n : nat) : bool :=
  ((65 <=? n) && (n <=? 90)
   || (192 <=? n) && (n <=? 222) && negb (n =? 215))%nat.

Definition lower_char (c : ascii) : ascii :=
  let n := nat_of_ascii c in
  if is_upper n then ascii_of_nat (n + 32) else c.

Fixpoint lower (s : string) : string :=
  match s with
  | EmptyString => EmptyString
  | String c s' => String (lower_char c) (lower s')
  end.

(** [needle in hay] for two [str]: [needle] starts at some position of
    [hay]. *)
Fixpoint contains (hay needle : string) : bool :=
  String.prefix needle hay ||
  match hay with
  | EmptyString => false
  | String _ hay' => contains hay' needle
  end.

(** [v.lower()]: only a [str] has the method. *)
Definition lower_method (v : value) : result string :=
  match v with
  | VStr s => Ok (lower s)
  | _ => Raise AttributeError
  end.

(** ** class Book *)

Module Book.

Record t : Type := mk {
  title : value;
  author : value;
  isbn : value;
  status : value
}.

(** [Book(title, author, isbn, status="available")]: [None] for the
    status stands for the omitted argument. *)
Definition init (title author isbn : value) (status : option value) : t :=
  mk title author isbn (default (VStr "available") status).

Definition set_status (self : t) (s : value) : t :=
  mk (title self) (author self) (isbn self) s.

(** The methods that assign to [self] return the book they leave
    behind, next to their Python result. *)
Definition issue (self : t) : bool * t :=
  if eq_str (status self) "available"
  then (true, set_status self (VStr "issued"))
  else (false, self).

Definition return_book (self : t) : bool * t :=
  if eq_str (status self) "issued"
  then (true, set_status self (VStr "available"))
  else (false, self).

Definition is_available (self : t) : bool :=
  eq_str (status self) "available".

Definition to_dict (self : t) : value :=
  VDict [("title", title self); ("author", author self);
         ("isbn", isbn self); ("status", status self)].

(** The keyword arguments are evaluated in the order they are written. *)
Definition from_dict (data : value) : result t :=
  title <-! getitem data "title";
  author <-! getitem data "author";
  isbn <-! getitem data "isbn";
  status <-! getitem data "status";
  Ok (init title author isbn (Some status)).

End Book.

(** ** The world outside the program: files, the log, the json module *)

(** A file holds text and can be closed to reading or to writing; a path
    with no file can be created or not (a missing or read-only
    directory). *)
Record file : Type := File {
  data : string;
  readable : bool;
  writable : bool
}.

(** An entry of the log: the level and the message, an error message
    being followed by the text of its exception. *)
Inductive log_entry : Type :=
  | Info (msg : string)
  | Error (msg : string) (e : exn).

Record world : Type := World {
  files : gmap string file;
  creatable : string -> bool;
  log : list log_entry
}.

(** Python's [json] module is not part of the program.  [json_load] is
    [json.load] on the text of a file.  [json_dump] is [json.dump]: it
    writes its output piece by piece, so it yields the text written and,
    when it stops early, the exception it raises. *)
Class Json : Type := {
  json_load : string -> result value;
  json_dump : value -> string * option exn
}.

(** What the program relies on: a document [json.dump] wrote completely is
    read back by [json.load] as the value that was written. *)
Class JsonLawful `{Json} : Prop :=
  json_load_dump :
    forall v text, json_dump v = (text, None) -> json_load text = Ok v.

(** Statements run in a world they may change, and may raise; what was
    done to the world before an exception stays done. *)
Definition M (A : Type) : Type := world -> result A * world.

Definition ret {A} (a : A) : M A := fun w => (Ok a, w).

Definition raise {A} (e : exn) : M A := fun w => (Raise e, w).

Definition bind {A B} (m : M A) (k : A -> M B) : M B :=
  fun w =>
    match m w with
    | (Ok a, w') => k a w'
    | (Raise e, w') => (Raise e, w')
    end.

Definition lift {A} (r : result A) : M A := fun w => (r, w).

(** [try: body except Exception as e: handler(e)] *)
Definition try_except {A} (body : M A) (handler : exn -> M A) : M A :=
  fun w =>
    match body w with
    | (Ok a, w') => (Ok a, w')
    | (Raise e, w') => handler e w'
    end.

Notation "x <- m ;; k" := (bind m (fun x => k))
  (at level 100, m at next level, right associativity, only parsing).
Notation "m ;; k" := (bind m (fun _ => k))
  (at level 100, right associativity, only parsing).

(** Logging, as seen from every file but the log file: the entries are
    kept in order, apart from the files.  [Logged] below writes them into
    the log file as well. *)
Definition logging_info (msg : string) : M unit :=
  fun w => (Ok tt, World (files w) (creatable w) (log w ++ [Info msg])).

Definition logging_error (msg : string) (e : exn) : M unit :=
  fun w => (Ok tt, World (files w) (creatable w) (log w ++ [Error msg e])).

Definition path_exists (path : string) : M bool :=
  fun w => (Ok (bool_decide (is_Some (files w !! path))), w).

(** [open(path, "r")] followed by reading the whole file. *)
Definition read_file (path : string) : M string :=
  fun w =>
    match files w !! path with
    | Some f => if readable f then (Ok (data f), w) else (Raise OSError, w)
    | None => (Raise OSError, w)
    end.

Definition set_file (path : string) (f : file) (w : world) : world :=
  World (<[path := f]> (files w)) (creatable w) (log w).

(** [open(path, "w")]: an existing file is emptied, a missing one is
    created empty. *)
Definition open_w (path : string) : M unit :=
  fun w =>
    match files w !! path with
    | Some f =>
        if writable f
        then (Ok tt, set_file path (File "" (readable f) true) w)
        else (Raise OSError, w)
    | None =>
        if creatable w path
        then (Ok tt, set_file path (File "" true true) w)
        else (Raise OSError, w)
    end.

(** Writing to the file opened by [open_w]. *)
Definition write (path : string) (text : string) : M unit :=
  fun w =>
    match files w !! path with
    | Some f =>
        (Ok tt,
         set_file path (File (data f +:+ text) (readable f) (writable f)) w)
    | None => (Raise OSError, w)
    end.

(** ** class LibraryInventory *)

Module LibraryInventory.
Section WithJson.
Context `{Json}.

Record t : Type := mk {
  file_path : string;
  books : list Book.t
}.

Definition set_books (self : t) (bs : list Book.t) : t :=
  mk (file_path self) bs.

Definition save_books (self : t) : M unit :=
  try_except
    (open_w (file_path self);;
     let (text, stopped) := json_dump (VList (Book.to_dict <$> books self)) in
     write (file_path self) text;;
     match stopped with
     | Some e => raise e
     | None => logging_info "Catalog saved."
     end)
    (fun e => logging_error "Could not save catalog: " e).

Definition load_books (self : t) : M t :=
  try_except
    (found <- path_exists (file_path self);;
     if found : bool then
       text <- read_file (file_path self);;
       data <- lift (json_load text);;
       records <- lift (iterate data);;
       bs <- lift (rmap Book.from_dict records);;
       logging_info "Catalog loaded successfully.";;
       ret (set_books self bs)
     else
       save_books (set_books self []);;
       ret (set_books self []))
    (fun e =>
       logging_error "Error loading catalog: " e;;
       ret (set_books self [])).

(** [LibraryInventory(file_path="catalog.json")] *)
Definition init (path : option string) : M t :=
  load_books (mk (default "catalog.json" path) []).

Definition add_book (self : t) (book : Book.t) : M t :=
  let self' := set_books self (books self ++ [book]) in
  save_books self';; ret self'.

(** The search string is a [str], as the menu passes it. *)
Definition search_by_title (self : t) (title : string) : result (list Book.t) :=
  rfilter
    (fun b => hay <-! lower_method (Book.title b); Ok (contains hay (lower title)))
    (books self).

Fixpoint first_with_isbn (bs : list Book.t) (isbn : string) : option Book.t :=
  match bs with
  | [] => None
  | b :: bs' => if eq_str (Book.isbn b) isbn then Some b else first_with_isbn bs' isbn
  end.

(** The [for] loop with its early [return]; [None] is Python's [None]. *)
Definition search_by_isbn (self : t) (isbn : string) : option Book.t :=
  first_with_isbn (books self) isbn.

Definition display_all (self : t) : list Book.t := books self.

End WithJson.
End LibraryInventory.

(** ** The menu actions of [main] that create or change books *)

Module Main.
Section WithJson.
Context `{Json}.

(** Choice 1: the three answers to [input] are [str]s, and the book is
    built without a status argument. *)
Definition add (inventory : LibraryInventory.t) (title author isbn : string)
  : M LibraryInventory.t :=
  let book := Book.init (VStr title) (VStr author) (VStr isbn) None in
  LibraryInventory.add_book inventory book.

(** [search_by_isbn] hands out the book object that sits in the list, so
    a method called on it changes the list entry it was found at: the
    first one with that isbn.  [None] when no book has the isbn. *)
Fixpoint call_on_first (bs : list Book.t) (isbn : string)
    (method : Book.t -> bool * Book.t) : option (bool * list Book.t) :=
  match bs with
  | [] => None
  | b :: bs' =>
      if eq_str (Book.isbn b) isbn
      then let (r, b') := method b in Some (r, b' :: bs')
      else match call_on_first bs' isbn method with
           | Some (r, bs'') => Some (r, b :: bs'')
           | None => None
           end
  end.

(** Choices 2 and 3: [if book and book.method(): inventory.save_books()].
    The boolean tells which of the two messages is printed. *)
Definition change (method : Book.t -> bool * Book.t)
    (inventory : LibraryInventory.t) (isbn : string)
  : M (bool * LibraryInventory.t) :=
  match call_on_first (LibraryInventory.books inventory) isbn method with
  | Some (true, bs) =>
      let inventory' := LibraryInventory.set_books inventory bs in
      LibraryInventory.save_books inventory';;
      ret (true, inventory')
  | Some (false, bs) => ret (false, LibraryInventory.set_books inventory bs)
  | None => ret (false, inventory)
  end.

Definition issue := change Book.issue.

Definition return_book := change Book.return_book.

(** What a [print] call of these actions puts on the screen: a fixed
    line, the string form of a book, or the error line of the handler. *)
Inductive printed : Type :=
  | Line (text : string)
  | BookLine (b : Book.t)
  | ErrorLine (e : exn).

(** Choice 5, with the handler of the loop around it: the search runs to
    its end before anything is printed, and an exception it raises is
    printed and logged instead. *)
Definition search (inventory : LibraryInventory.t) (title : string)
  : M (list printed) :=
  try_except
    (results <- lift (LibraryInventory.search_by_title inventory title);;
     ret match results with
         | [] => [Line "No books found."]
         | _ => BookLine <$> results
         end)
    (fun e => logging_error "Runtime error: " e;; ret [ErrorLine e]).

End WithJson.
End Main.

(** ** The same methods, with the log in its file *)

(** The program logs into the file [library.log] of the working directory
    (lines 8 to 12).  Above, the log entries are kept apart from the
    files, which is how every file but that one sees them.  Here each
    entry is also written where the program writes it.  Paths stand for
    the files they name: two paths are equal when they name one file. *)
Definition log_file : string := "library.log".

(** The text the logging module writes for an entry: the time stamp, the
    level, the message and the end of the line.  Time is not modelled;
    the entries logged before stand for it. *)
Class LogFormat : Type := {
  log_line : list log_entry -> log_entry -> string
}.

(** The handler opened the file for appending when the program started:
    a line goes to the end of what the file holds at that moment,
    whatever its permissions are now.  If the file is gone from the path,
    the line is written to a file that no path names any more. *)
Definition with_line (line : string) (fs : gmap string file) : gmap string file :=
  match fs !! log_file with
  | Some f => <[log_file := File (data f +:+ line) (readable f) (writable f)]> fs
  | None => fs
  end.

Definition append_line (line : string) (w : world) : world :=
  World (with_line line (files w)) (creatable w) (log w).

Module Logged.
Section WithJson.
Context `{Json} `{LogFormat}.

Definition emit (entry : log_entry) : M unit :=
  fun w =>
    (Ok tt,
     append_line (log_line (log w) entry)
       (World (files w) (creatable w) (log w ++ [entry]))).

Definition logging_info (msg : string) : M unit := emit (Info msg).

Definition logging_error (msg : string) (e : exn) : M unit :=
  emit (Error msg e).

Definition save_books (self : LibraryInventory.t) : M unit :=
  try_except
    (open_w (LibraryInventory.file_path self);;
     let (text, stopped) :=
       json_dump (VList (Book.to_dict <$> LibraryInventory.books self)) in
     write (LibraryInventory.file_path self) text;;
     match stopped with
     | Some e => raise e
     | None => logging_info "Catalog saved."
     end)
    (fun e => logging_error "Could not save catalog: " e).

Definition load_books (self : LibraryInventory.t) : M LibraryInventory.t :=
  try_except
    (found <- path_exists (LibraryInventory.file_path self);;
     if found : bool then
       text <- read_file (LibraryInventory.file_path self);;
       data <- lift (json_load text);;
       records <- lift (iterate data);;
       bs <- lift (rmap Book.from_dict records);;
       logging_info "Catalog loaded successfully.";;
       ret (LibraryInventory.set_books self bs)
     else
       save_books (LibraryInventory.set_books self []);;
       ret (LibraryInventory.set_books self []))
    (fun e =>
       logging_error "Error loading catalog: " e;;
       ret (LibraryInventory.set_books self [])).

Definition init (path : option string) : M LibraryInventory.t :=
  load_books (LibraryInventory.mk (default "catalog.json" path) []).

Definition add_book (self : LibraryInventory.t) (book : Book.t)
  : M LibraryInventory.t :=
  let self' :=
    LibraryInventory.set_books self (LibraryInventory.books self ++ [book]) in
  save_books self';; ret self'.

End WithJson.
End Logged.

(** ** Notions used to state the properties *)

(** The two values the status of a book is meant to take. *)
Definition valid_status (v : value) : Prop :=
  v = VStr "available" \/ v = VStr "issued".

Definition all_valid (bs : list Book.t) : Prop :=
  Forall (fun b => valid_status (Book.status b)) bs.

Definition keys : list string := ["title"; "author"; "isbn"; "status"].

(** A value that has the shape of a book record: a dict with the four
    keys. *)
Definition is_record (v : value) : bool :=
  match v with
  | VDict items => forallb (fun k => bool_decide (is_Some (dict_get items k))) keys
  | _ => false
  end.

(** The title is text, as the data model has it. *)
Definition text_title (b : Book.t) : Prop :=
  exists s, Book.title b = VStr s.


(** The same as a test on a book, for filtering. *)
Definition title_matches (needle : string) (b : Book.t) : bool :=
  match Book.title b with
  | VStr s => contains (lower s) (lower needle)
  | _ => false
  end.

(** [b] is the first book of [bs] with the isbn [isbn]. *)
Definition first_match (isbn : string) (bs : list Book.t) (b : Book.t) : Prop :=
  exists before after,
    bs = before ++ b :: after /\
    Book.isbn b = VStr isbn /\
    Forall (fun b' => Book.isbn b' <> VStr isbn) before.

(** Whether the file that [open(path, "w")] leaves behind can be read: an
    existing file keeps its permissions, a created one is readable. *)
Definition readable_after (w : world) (path : string) : bool :=
  match files w !! path with
  | Some f => readable f
  | None => true
  end.

(** Whether [open(path, "w")] goes through: an existing file must be
    writable, a missing one must be creatable. *)
Definition can_open (w : world) (path : string) : bool :=
  match files w !! path with
  | Some f => writable f
  | None => creatable w path
  end.

(** What [save_books] hands to [json.dump]. *)
Definition document (self : LibraryInventory.t) : value :=
  VList (Book.to_dict <$> LibraryInventory.books self).

(** The record [r] holds the four fields of the book [b]. *)
Definition record_of (r : value) (b : Book.t) : Prop :=
  exists items,
    r = VDict items /\
    dict_get items "title" = Some (Book.title b) /\
    dict_get items "author" = Some (Book.author b) /\
    dict_get items "isbn" = Some (Book.isbn b) /\
    dict_get items "status" = Some (Book.status b).

(** Lines 77 and 78 of [load_books] on their own: the text of the catalog
    is decoded, and each element of the result is made a book. *)
Definition parse `{Json} (text : string) : result (list Book.t) :=
  data <-! json_load text;
  records <-! iterate data;
  rmap Book.from_dict records.

(** The text parses as a sequence of book records. *)
Definition well_formed `{Json} (text : string) : Prop :=
  exists records,
    json_load text = Ok (VList records) /\
    Forall (fun r => is_record r = true) records.

(** ** Sample data *)

Definition war_and_peace : Book.t :=
  Book.mk (VStr "War and Peace") (VStr "Leo Tolstoy") (VStr "111") (VStr "available").

Definition dune : Book.t :=
  Book.mk (VStr "Dune") (VStr "Frank Herbert") (VStr "222") (VStr "issued").

Definition warlock : Book.t :=
  Book.mk (VStr "Warlock") (VStr "Oakley Hall") (VStr "333") (VStr "available").

Definition shelf : LibraryInventory.t :=
  LibraryInventory.mk "catalog.json" [war_and_peace; dune; warlock].

(** A record whose status is neither of the two expected values. *)
Definition lost_record : value :=
  VDict [("title", VStr "Emma"); ("author", VStr "Jane Austen");
         ("isbn", VStr "444"); ("status", VStr "lost")].

(** A record without its isbn. *)
Definition short_record : value :=
  VDict [("title", VStr "Emma"); ("author", VStr "Jane Austen");
         ("status", VStr "available")].

(** The text [json.dump(..., indent=4)] writes for [shelf]. *)
Definition quoted (s : string) : string :=
  String "034"%char s +:+ String "034"%char "".

Definition newline : string := String "010"%char "".

Definition member_line (key text : string) (last : bool) : string :=
  "        " +:+ quoted key +:+ ": " +:+ quoted text
  +:+ (if last then "" else ",") +:+ newline.

Definition record_lines (title author isbn status : string) (last : bool) : string :=
  "    {" +:+ newline
  +:+ member_line "title" title false
  +:+ member_line "author" author false
  +:+ member_line "isbn" isbn false
  +:+ member_line "status" status true
  +:+ "    }" +:+ (if last then "" else ",") +:+ newline.

Definition shelf_text : string :=
  "[" +:+ newline
  +:+ record_lines "War and Peace" "Leo Tolstoy" "111" "available" false
  +:+ record_lines "Dune" "Frank Herbert" "222" "issued" false
  +:+ record_lines "Warlock" "Oakley Hall" "333" "available" true
  +:+ "]".

Definition shelf_document : value :=
  VList (Book.to_dict <$> LibraryInventory.books shelf).

(** Structural equality of values, to recognise [shelf_document]. *)
Fixpoint same_value (v w : value) : bool :=
  match v, w with
  | VNone, VNone => true
  | VBool a, VBool b => Bool.eqb a b
  | VInt m, VInt n => Z.eqb m n
  | VFloat m, VFloat n => Z.eqb m n
  | VStr s, VStr t => String.eqb s t
  | VList xs, VList ys =>
      (fix go (xs ys : list value) : bool :=
         match xs, ys with
         | [], [] => true
         | x :: xs', y :: ys' => same_value x y && go xs' ys'
         | _, _ => false
         end) xs ys
  | VDict xs, VDict ys =>
      (fix go (xs ys : list (string * value)) : bool :=
         match xs, ys with
         | [], [] => true
         | (k, x) :: xs', (l, y) :: ys' =>
             String.eqb k l && same_value x y && go xs' ys'
         | _, _ => false
         end) xs ys
  | _, _ => false
  end.

(** The part of the json module that concerns this one document: it is
    written as [shelf_text], and [shelf_text] is read as it. *)
Definition shelf_json : Json := {|
  json_load text :=
    if String.eqb text shelf_text then Ok shelf_document else Raise ValueError;
  json_dump v :=
    if same_value v shelf_document then (shelf_text, None)
    else ("", Some TypeError)
|}.

(** A world with no file, where files can be created. *)
Definition empty_world : world := World ∅ (fun _ => true) [].

(** A world whose catalog is not JSON at all. *)
Definition broken_world : world :=
  World {[ "catalog.json" := File "{oops" true true ]} (fun _ => true) [].


Definition sealed_world : world := World ∅ (fun _ => false) [].

(** The part of the json module that concerns the empty catalog. *)
Definition empty_json : Json := {|
  json_load text :=
    if String.eqb text "[]" then Ok (VList []) else Raise ValueError;
  json_dump v :=
    if same_value v (VList []) then ("[]", None) else ("[", Some TypeError)
|}.

(** A world whose catalog holds [shelf_text]. *)
Definition shelf_world : world :=
  World {[ "catalog.json" := File shelf_text true true ]} (fun _ => true) [].

(** Two copies of one book, under the same isbn. *)
Definition second_copy : Book.t :=
  Book.mk (VStr "Dune") (VStr "Frank Herbert") (VStr "222") (VStr "available").

Definition copies : LibraryInventory.t :=
  LibraryInventory.mk "catalog.json" [war_and_peace; second_copy; second_copy].

(** A book as a catalog written by hand can hold it: the title is a
    number. *)
Definition numbered : Book.t :=
  Book.mk (VInt 1984) (VStr "George Orwell") (VStr "555") (VStr "available").

(** The lines of the log as one run could write them: the same time
    stamp on every line, and the message without the text of the
    exception. *)
Definition sample_format : LogFormat := {|
  log_line _ entry :=
    match entry with
    | Info msg => "2025-01-01 12:00:00,000 - INFO - " +:+ msg +:+ newline
    | Error msg _ => "2025-01-01 12:00:00,000 - ERROR - " +:+ msg +:+ newline
    end
|}.

(** The books of [shelf], in an inventory kept in the log file. *)
Definition shelf_in_log : LibraryInventory.t :=
  LibraryInventory.mk "library.log" [war_and_peace; dune; warlock].

(** A world at the start of a run: the log file is there and empty. *)
Definition fresh_world : world :=
  World {[ "library.log" := File "" true true ]} (fun _ => true) [].

(** The same with the catalog of [shelf_world] beside it. *)
Definition shelf_world_with_log : world :=
  World {[ "catalog.json" := File shelf_text true true;
           "library.log" := File "" true true ]} (fun _ => true) [].

(** * Properties *)

(** ** Comparisons, subscripts and comprehensions *)

(** Membership in a list that is written out. *)
Ltac in_list :=
  unfold keys;
  repeat first [apply list_elem_of_here | apply list_elem_of_further].

Lemma eq_str_true v s : eq_str v s = true <-> v = VStr s.
Proof.
  destruct v; simpl; try (split; [discriminate | congruence]).
  rewrite String.eqb_eq. split; congruence.
Qed.

Lemma eq_str_false v s : eq_str v s = false <-> v <> VStr s.
Proof.
  rewrite <- eq_str_true. destruct (eq_str v s); split; congruence.
Qed.

Lemma getitem_Ok data key v :
  getitem data key = Ok v <->
  exists items, data = VDict items /\ dict_get items key = Some v.
Proof.
  split.
  - destruct data; simpl; try discriminate.
    destruct (dict_get items key) eqn:E; [|discriminate].
    intros [= ->]. eauto.
  - intros (items & -> & E). simpl. by rewrite E.
Qed.

Lemma rmap_Ok {A B} (f : A -> result B) xs ys :
  rmap f xs = Ok ys <-> Forall2 (fun x y => f x = Ok y) xs ys.
Proof.
  revert ys. induction xs as [|x xs IH]; intros ys; simpl.
  - split; [intros [= <-]; constructor | by inversion 1].
  - split.
    + destruct (f x) as [y|] eqn:Hx; simpl; [|discriminate].
      destruct (rmap f xs) as [ys'|] eqn:Hxs; simpl; [|discriminate].
      intros [= <-]. constructor; [done|]. by apply IH.
    + inversion 1 as [|? y ? ys' Hx Hxs]; subst. rewrite Hx. simpl.
      apply IH in Hxs. by rewrite Hxs.
Qed.

Lemma rfilter_total {A} (p : A -> result bool) (q : A -> bool) xs :
  Forall (fun x => p x = Ok (q x)) xs ->
  rfilter p xs = Ok (List.filter q xs).
Proof.
  induction 1 as [|x xs Hx _ IH]; simpl; [done|].
  rewrite Hx, IH. simpl. by destruct (q x).
Qed.

(** ** Book *)

Section BookProperties.

Implicit Types (b : Book.t) (t a i s : value).

Lemma issue_from_available t a i :
  Book.issue (Book.mk t a i (VStr "available"))
  = (true, Book.mk t a i (VStr "issued")).
Proof. reflexivity. Qed.

Lemma issue_otherwise b :
  Book.status b <> VStr "available" -> Book.issue b = (false, b).
Proof. intros Hs. unfold Book.issue. apply eq_str_false in Hs. by rewrite Hs. Qed.

Lemma return_from_issued t a i :
  Book.return_book (Book.mk t a i (VStr "issued"))
  = (true, Book.mk t a i (VStr "available")).
Proof. reflexivity. Qed.

Lemma return_otherwise b :
  Book.status b <> VStr "issued" -> Book.return_book b = (false, b).
Proof.
  intros Hs. unfold Book.return_book. apply eq_str_false in Hs. by rewrite Hs.
Qed.

Lemma issue_valid b :
  valid_status (Book.status b) -> valid_status (Book.status (Book.issue b).2).
Proof.
  unfold Book.issue. destruct (eq_str _ _); simpl; [by right | done].
Qed.

Lemma return_valid b :
  valid_status (Book.status b) ->
  valid_status (Book.status (Book.return_book b).2).
Proof.
  unfold Book.return_book. destruct (eq_str _ _); simpl; [by left | done].
Qed.

Lemma from_to_dict b : Book.from_dict (Book.to_dict b) = Ok b.
Proof. by destruct b. Qed.

Lemma from_dict_Ok data b :
  Book.from_dict data = Ok b <->
  exists items,
    data = VDict items /\
    dict_get items "title" = Some (Book.title b) /\
    dict_get items "author" = Some (Book.author b) /\
    dict_get items "isbn" = Some (Book.isbn b) /\
    dict_get items "status" = Some (Book.status b).
Proof.
  split.
  - destruct data; try discriminate. unfold Book.from_dict. simpl.
    destruct (dict_get items "title") eqn:E1; [|discriminate].
    destruct (dict_get items "author") eqn:E2; [|discriminate].
    destruct (dict_get items "isbn") eqn:E3; [|discriminate].
    destruct (dict_get items "status") eqn:E4; [|discriminate].
    simpl. intros [= <-]. eauto 6.
  - intros (items & -> & E1 & E2 & E3 & E4). unfold Book.from_dict. simpl.
    rewrite E1, E2, E3, E4. simpl. by destruct b.
Qed.

End BookProperties.

(** ** The claims about Book *)

(** C1: on a book whose status is "available", [issue] answers success and
    leaves the status "issued" with the other fields as they were; on any
    other book it answers failure and leaves the book as it was; hence
    issuing again right after an [issue] fails and changes nothing. *)
Theorem issue_spec (b : Book.t) :
  (Book.status b = VStr "available" ->
   Book.issue b
   = (true, Book.mk (Book.title b) (Book.author b) (Book.isbn b) (VStr "issued")))
  /\ (Book.status b <> VStr "available" -> Book.issue b = (false, b))
  /\ Book.issue (Book.issue b).2 = (false, (Book.issue b).2).
Proof.
  split; [|split].
  - destruct b as [t a i s]; simpl. intros ->. apply issue_from_available.
  - apply issue_otherwise.
  - unfold Book.issue at 2 3. destruct (eq_str _ _) eqn:E; simpl.
    + by apply issue_otherwise.
    + by apply issue_otherwise, eq_str_false.
Qed.

Lemma issue_spec_witness :
  Book.issue war_and_peace
  = (true, Book.mk (VStr "War and Peace") (VStr "Leo Tolstoy") (VStr "111")
             (VStr "issued"))
  /\ Book.issue dune = (false, dune).
Proof.
  split.
  - apply (proj1 (issue_spec war_and_peace)). reflexivity.
  - apply (proj1 (proj2 (issue_spec dune))). discriminate.
Defined.

(** C2: on a book whose status is "issued", [return_book] answers success
    and leaves the status "available"; on any other book it answers
    failure and leaves the book as it was; hence returning again right
    after a [return_book] fails. *)
Theorem return_book_spec (b : Book.t) :
  (Book.status b = VStr "issued" ->
   Book.return_book b
   = (true, Book.mk (Book.title b) (Book.author b) (Book.isbn b) (VStr "available")))
  /\ (Book.status b <> VStr "issued" -> Book.return_book b = (false, b))
  /\ Book.return_book (Book.return_book b).2 = (false, (Book.return_book b).2).
Proof.
  split; [|split].
  - destruct b as [t a i s]; simpl. intros ->. apply return_from_issued.
  - apply return_otherwise.
  - unfold Book.return_book at 2 3. destruct (eq_str _ _) eqn:E; simpl.
    + by apply return_otherwise.
    + by apply return_otherwise, eq_str_false.
Qed.

Lemma return_book_spec_witness :
  Book.return_book dune
  = (true, Book.mk (VStr "Dune") (VStr "Frank Herbert") (VStr "222")
             (VStr "available"))
  /\ Book.return_book warlock = (false, warlock).
Proof.
  split.
  - apply (proj1 (return_book_spec dune)). reflexivity.
  - apply (proj1 (proj2 (return_book_spec warlock))). discriminate.
Defined.

(** C4: whatever the four fields of a book are, [from_dict] of its
    [to_dict] succeeds and gives a book with the same four fields. *)
Theorem to_dict_from_dict_roundtrip (title author isbn status : value) :
  Book.from_dict (Book.to_dict (Book.mk title author isbn status))
  = Ok (Book.mk title author isbn status).
Proof. apply from_to_dict. Qed.

(** C9: [from_dict] of a dict gives a book, made of the four entries, when
    the four keys are there; when one of the four keys is missing it
    raises [KeyError] for a missing one of them. *)
Theorem from_dict_needs_four_keys (items : list (string * value)) :
  (forall title author isbn status,
     dict_get items "title" = Some title ->
     dict_get items "author" = Some author ->
     dict_get items "isbn" = Some isbn ->
     dict_get items "status" = Some status ->
     Book.from_dict (VDict items) = Ok (Book.mk title author isbn status))
  /\ (forall key,
        key ∈ keys -> dict_get items key = None ->
        exists missing,
          missing ∈ keys /\ dict_get items missing = None /\
          Book.from_dict (VDict items) = Raise (KeyError missing)).
Proof.
  split.
  - intros t a i s E1 E2 E3 E4. unfold Book.from_dict. simpl.
    by rewrite E1, E2, E3, E4.
  - intros key Hkey Hnone. unfold Book.from_dict, keys in *. simpl.
    destruct (dict_get items "title") eqn:E1;
      [|exists "title"; repeat split; [in_list | done..]].
    destruct (dict_get items "author") eqn:E2;
      [|exists "author"; repeat split; [in_list | done..]].
    destruct (dict_get items "isbn") eqn:E3;
      [|exists "isbn"; repeat split; [in_list | done..]].
    destruct (dict_get items "status") eqn:E4;
      [|exists "status"; repeat split; [in_list | done..]].
    exfalso. repeat (apply elem_of_cons in Hkey as [-> | Hkey]; [congruence|]).
    by apply elem_of_nil in Hkey.
Qed.

Lemma from_dict_needs_four_keys_witness :
  Book.from_dict (Book.to_dict dune) = Ok dune
  /\ exists missing,
       missing ∈ keys /\
       Book.from_dict short_record = Raise (KeyError missing).
Proof.
  split.
  - apply (proj1 (from_dict_needs_four_keys
             [("title", VStr "Dune"); ("author", VStr "Frank Herbert");
              ("isbn", VStr "222"); ("status", VStr "issued")]));
      reflexivity.
  - destruct (proj2 (from_dict_needs_four_keys
             [("title", VStr "Emma"); ("author", VStr "Jane Austen");
              ("status", VStr "available")]) "isbn")
      as (missing & Hin & _ & Hraise).
    + in_list.
    + reflexivity.
    + exists missing. split; [exact Hin | exact Hraise].
Defined.

(** C10: a book built without a status argument has the status
    "available", whatever its other fields; this is how choice 1 of the
    menu builds the book it appends, so the added book is available and can
    be issued. *)
Theorem new_book_is_available :
  (forall title author isbn,
     Book.status (Book.init title author isbn None) = VStr "available" /\
     Book.is_available (Book.init title author isbn None) = true /\
     (Book.issue (Book.init title author isbn None)).1 = true)
  /\ (forall (J : Json) inventory title author isbn w,
        exists w',
          Main.add inventory title author isbn w
          = (Ok (LibraryInventory.mk
                   (LibraryInventory.file_path inventory)
                   (LibraryInventory.books inventory
                    ++ [Book.mk (VStr title) (VStr author) (VStr isbn)
                          (VStr "available")])),
             w')).
Proof.
  split; [done|].
  intros J inventory title author isbn w.
  unfold Main.add, LibraryInventory.add_book, bind, ret.
  destruct (LibraryInventory.save_books _ w) as [[[]|e] w'] eqn:E; [by eexists|].
  exfalso. revert E.
  unfold LibraryInventory.save_books, try_except, logging_error.
  by destruct (bind _ _ w) as [[[]|?] ?].
Qed.

(** ** Saving and loading *)

Section InventoryProperties.
Context `{J : Json}.

Import LibraryInventory.

Implicit Types (self : LibraryInventory.t) (w : world).

Lemma save_books_cases self w :
  exists w',
    save_books self w = (Ok tt, w') /\
    creatable w' = creatable w /\
    ((exists e, log w' = log w ++ [Error "Could not save catalog: " e])
     \/ (exists text,
           json_dump (VList (Book.to_dict <$> books self)) = (text, None) /\
           log w' = log w ++ [Info "Catalog saved."] /\
           files w'
           = <[file_path self := File text (readable_after w (file_path self)) true]>
               (files w))).
Proof.
  unfold save_books, try_except, bind, open_w, write, set_file, raise,
    logging_info, logging_error, readable_after.
  destruct (files w !! file_path self) as [f|] eqn:Hf.
  - destruct (writable f); simpl.
    + destruct (json_dump _) as [text [e|]] eqn:Hd; simpl;
        rewrite lookup_insert_eq; simpl.
      * eexists. split; [done|]. split; [done|]. left. by eexists.
      * eexists. split; [done|]. split; [done|]. right. exists text.
        split; [done|]. split; [done|]. by rewrite insert_insert_eq.
    + eexists. split; [done|]. split; [done|]. left. by eexists.
  - destruct (creatable w (file_path self)); simpl.
    + destruct (json_dump _) as [text [e|]] eqn:Hd; simpl;
        rewrite lookup_insert_eq; simpl.
      * eexists. split; [done|]. split; [done|]. left. by eexists.
      * eexists. split; [done|]. split; [done|]. right. exists text.
        split; [done|]. split; [done|]. by rewrite insert_insert_eq.
    + eexists. split; [done|]. split; [done|]. left. by eexists.
Qed.

Lemma load_books_existing self w f :
  files w !! file_path self = Some f ->
  load_books self w
  = match (if readable f then parse (data f) else Raise OSError) with
    | Ok bs =>
        (Ok (set_books self bs),
         World (files w) (creatable w)
           (log w ++ [Info "Catalog loaded successfully."]))
    | Raise e =>
        (Ok (set_books self []),
         World (files w) (creatable w)
           (log w ++ [Error "Error loading catalog: " e]))
    end.
Proof.
  intros Hf.
  unfold load_books, try_except, bind, path_exists, read_file, lift, parse,
    ret, logging_info, logging_error.
  cbv beta. rewrite bool_decide_eq_true_2 by (rewrite Hf; eauto).
  cbv beta iota. rewrite Hf.
  destruct (readable f); [|done].
  destruct (json_load (data f)) as [d|]; [|done]. simpl.
  destruct (iterate d) as [rs|]; [|done]. simpl.
  by destruct (rmap Book.from_dict rs).
Qed.

Lemma save_books_returns self w :
  exists w', save_books self w = (Ok tt, w').
Proof. destruct (save_books_cases self w) as (w' & ? & _). eauto. Qed.

Lemma from_dict_is_record r b : Book.from_dict r = Ok b -> is_record r = true.
Proof.
  intros (items & -> & E1 & E2 & E3 & E4)%from_dict_Ok. simpl.
  rewrite E1, E2, E3, E4. by rewrite !bool_decide_eq_true_2 by eauto.
Qed.

Lemma rmap_from_dict_strings {A} (g : A -> string) xs bs :
  rmap Book.from_dict ((fun x => VStr (g x)) <$> xs) = Ok bs -> bs = [].
Proof. destruct xs; simpl; [by intros [= <-] | discriminate]. Qed.

Lemma rmap_from_to_dict bs :
  rmap Book.from_dict (Book.to_dict <$> bs) = Ok bs.
Proof.
  induction bs as [|b bs IH]; [done|].
  rewrite fmap_cons. cbn [rmap]. rewrite from_to_dict. cbn [rbind].
  by rewrite IH.
Qed.

(** A text that parses without being a sequence of records has nothing
    in it to make a book of. *)
Lemma parse_Ok text bs :
  parse text = Ok bs -> bs = [] \/ well_formed text.
Proof.
  unfold parse, well_formed.
  destruct (json_load text) as [d|]; [simpl|discriminate].
  destruct d; simpl; try discriminate.
  - unfold chars. intros ?%rmap_from_dict_strings. by left.
  - intros Hbs. right. exists xs. split; [done|].
    apply rmap_Ok in Hbs. induction Hbs; constructor; eauto using from_dict_is_record.
  - intros ?%rmap_from_dict_strings. by left.
Qed.

Lemma load_books_returns self w :
  exists self' w', load_books self w = (Ok self', w').
Proof.
  destruct (files w !! file_path self) as [f|] eqn:Hf.
  - rewrite (load_books_existing _ _ _ Hf).
    destruct (if readable f then _ else _); eauto.
  - unfold load_books, try_except, bind, path_exists, ret. cbv beta.
    rewrite bool_decide_eq_false_2 by (rewrite Hf; by intros [? ?]).
    cbv beta iota.
    destruct (save_books_returns (set_books self []) w) as [w' ->]. eauto.
Qed.

(** C8: [load_books] never lets an exception out.  When the file at the
    path cannot be read, or holds a text that does not parse as a
    sequence of book records, it leaves the inventory with no books, and
    the files as they were. *)
Theorem load_books_swallows_failure self w :
  (exists self' w', load_books self w = (Ok self', w'))
  /\ (forall f,
        files w !! file_path self = Some f ->
        ~ (readable f = true /\ well_formed (data f)) ->
        exists w',
          load_books self w = (Ok (set_books self []), w') /\
          files w' = files w).
Proof.
  split; [apply load_books_returns|].
  intros f Hf Hbad. rewrite (load_books_existing _ _ _ Hf).
  destruct (readable f) eqn:Hr; [|by eexists].
  destruct (parse (data f)) as [bs|e] eqn:Hp; [|by eexists].
  apply parse_Ok in Hp as [-> | Hwf]; [by eexists|].
  destruct Hbad. by split.
Qed.

(** With the log kept apart: after a save that went through and left a
    readable file, a load from the same path gives the saved books. *)
Lemma load_after_save `{!JsonLawful} self w w1 :
  save_books self w = (Ok tt, w1) ->
  log w1 = log w ++ [Info "Catalog saved."] ->
  (forall f, files w1 !! file_path self = Some f -> readable f = true) ->
  (exists w2, init (Some (file_path self)) w1 = (Ok self, w2))
  /\ (forall other,
        file_path other = file_path self ->
        exists w2,
          load_books other w1 = (Ok (set_books other (books self)), w2)).
Proof.
  intros Hsave Hlog Hread.
  destruct (save_books_cases self w) as (w' & Hsave' & _ & Hcases).
  rewrite Hsave in Hsave'. injection Hsave' as <-.
  destruct Hcases as [[e He] | (text & Hdump & _ & Hfiles)].
  { rewrite He in Hlog. by apply app_inv_head in Hlog. }
  assert (Hf : files w1 !! file_path self
               = Some (File text (readable_after w (file_path self)) true))
    by (rewrite Hfiles; apply lookup_insert_eq).
  assert (Hload : forall other,
            file_path other = file_path self ->
            load_books other w1
            = (Ok (set_books other (books self)),
               World (files w1) (creatable w1)
                 (log w1 ++ [Info "Catalog loaded successfully."]))).
  { intros other Hpath. pose proof (Hread _ Hf) as Hr. simpl in Hr.
    rewrite <- Hpath in Hf at 1.
    rewrite (load_books_existing _ _ _ Hf). simpl. rewrite Hr.
    unfold parse. rewrite (json_load_dump _ _ Hdump). simpl.
    by rewrite rmap_from_to_dict. }
  split.
  - eexists. unfold init. simpl. rewrite Hload by done. by destruct self.
  - intros other Hpath. eexists. by apply Hload.
Qed.

End InventoryProperties.

(** Induction on values, with the hypothesis for the values inside a list
    or a dict. *)
Lemma value_ind' (P : value -> Prop) :
  P VNone ->
  (forall b, P (VBool b)) ->
  (forall n, P (VInt n)) ->
  (forall bits, P (VFloat bits)) ->
  (forall s, P (VStr s)) ->
  (forall xs, Forall P xs -> P (VList xs)) ->
  (forall items, Forall (fun kv => P kv.2) items -> P (VDict items)) ->
  forall v, P v.
Proof.
  intros HN HB HI HF HS HL HD. fix go 1.
  intros [|b|n|bits|s|xs|items].
  - exact HN.
  - exact (HB b).
  - exact (HI n).
  - exact (HF bits).
  - exact (HS s).
  - apply HL. induction xs as [|x xs IH]; constructor; [exact (go x) | exact IH].
  - apply HD. induction items as [|[k x] items IH]; constructor;
      [exact (go x) | exact IH].
Qed.

(** The sample json module keeps the law. *)
Lemma same_value_eq v w : same_value v w = true -> v = w.
Proof.
  revert w. induction v as [| | | | |xs IH|items IH] using value_ind'; intros [] Hs;
    simpl in Hs; try discriminate; try done.
  - by apply Bool.eqb_prop in Hs as ->.
  - by apply Z.eqb_eq in Hs as ->.
  - by apply Z.eqb_eq in Hs as ->.
  - by apply String.eqb_eq in Hs as ->.
  - f_equal. revert xs0 Hs. induction IH as [|x xs Hx _ IHxs]; intros [|y ys] Hs;
      try discriminate; [done|].
    apply andb_prop in Hs as [Hxy Hrest]. f_equal; eauto.
  - f_equal. revert items0 Hs.
    induction IH as [|[k x] xs Hx _ IHxs]; intros [|[l y] ys] Hs;
      try discriminate; [done|].
    apply andb_prop in Hs as [Hxy Hrest]. apply andb_prop in Hxy as [Hkl Hxy].
    apply String.eqb_eq in Hkl as ->. f_equal; [f_equal|]; eauto.
Qed.

Lemma shelf_json_lawful : @JsonLawful shelf_json.
Proof.
  intros v text. unfold json_dump, json_load, shelf_json.
  destruct (same_value v shelf_document) eqn:Hv; [|discriminate].
  intros [= <-]. rewrite String.eqb_refl. by apply same_value_eq in Hv as ->.
Qed.

Lemma load_books_swallows_failure_witness :
  exists w',
    @LibraryInventory.load_books shelf_json shelf broken_world
    = (Ok (LibraryInventory.set_books shelf []), w') /\
    files w' = files broken_world.
Proof.
  apply (proj2 (@load_books_swallows_failure shelf_json shelf broken_world)
           (File "{oops" true true)).
  - vm_compute. reflexivity.
  - intros [_ (records & Hload & _)]. vm_compute in Hload. discriminate.
Defined.

(** ** Searching *)






Lemma first_with_isbn_Some bs isbn b :
  LibraryInventory.first_with_isbn bs isbn = Some b <-> first_match isbn bs b.
Proof.
  unfold first_match. induction bs as [|b0 bs IH]; simpl.
  - split; [discriminate | intros ([|??] & ? & ? & _); discriminate].
  - destruct (eq_str (Book.isbn b0) isbn) eqn:E.
    + apply eq_str_true in E. split.
      * intros [= <-]. by exists [], bs.
      * intros ([|b1 before] & after & Hbs & Hb & Hnone).
        -- by injection Hbs as -> _.
        -- injection Hbs as -> _. by inversion Hnone.
    + apply eq_str_false in E. rewrite IH. split.
      * intros (before & after & -> & Hb & Hnone).
        exists (b0 :: before), after. by repeat split; [|constructor].
      * intros ([|b1 before] & after & Hbs & Hb & Hnone).
        -- injection Hbs as -> _. done.
        -- injection Hbs as -> ->. inversion Hnone. by exists before, after.
Qed.

Lemma first_with_isbn_None bs isbn :
  LibraryInventory.first_with_isbn bs isbn = None <->
  Forall (fun b => Book.isbn b <> VStr isbn) bs.
Proof.
  induction bs as [|b bs IH]; simpl.
  - split; [constructor | done].
  - destruct (eq_str (Book.isbn b) isbn) eqn:E.
    + apply eq_str_true in E. split; [discriminate | by inversion 1].
    + apply eq_str_false in E. rewrite IH. split; [by constructor | by inversion 1].
Qed.



Lemma search_by_title_text self needle :
  Forall text_title (LibraryInventory.books self) ->
  LibraryInventory.search_by_title self needle
  = Ok (List.filter (title_matches needle) (LibraryInventory.books self)).
Proof.
  intros Htext. unfold LibraryInventory.search_by_title.
  apply rfilter_total. eapply Forall_impl; [exact Htext|].
  intros b [s Hs]. unfold title_matches. by rewrite Hs.
Qed.

(** Outside the data model: a stored title that is not a [str] has no
    [lower] method, and the search stops there with the exception. *)
Lemma search_by_title_not_text path b bs needle :
  ~ text_title b ->
  LibraryInventory.search_by_title (LibraryInventory.mk path (b :: bs)) needle
  = Raise AttributeError.
Proof.
  intros Hb. unfold LibraryInventory.search_by_title. simpl.
  destruct (Book.title b) eqn:E; try done.
  destruct Hb. by eexists.
Qed.




(** C7: [search_by_isbn] returns a book exactly when it is the first one
    in stored order whose isbn is the given string, and returns nothing
    exactly when no stored book has that isbn, as in an inventory without
    books. *)
Theorem search_by_isbn_spec (self : LibraryInventory.t) (isbn : string) :
  (forall b,
     LibraryInventory.search_by_isbn self isbn = Some b <->
     first_match isbn (LibraryInventory.books self) b)
  /\ (LibraryInventory.search_by_isbn self isbn = None <->
      Forall (fun b => Book.isbn b <> VStr isbn) (LibraryInventory.books self))
  /\ LibraryInventory.search_by_isbn (LibraryInventory.set_books self []) isbn
     = None.
Proof.
  split; [|split].
  - intros b. apply first_with_isbn_Some.
  - apply first_with_isbn_None.
  - reflexivity.
Qed.

Lemma search_by_isbn_spec_witness :
  LibraryInventory.search_by_isbn shelf "222" = Some dune
  /\ LibraryInventory.search_by_isbn shelf "999" = None.
Proof.
  split.
  - apply (proj1 (search_by_isbn_spec shelf "222")).
    exists [war_and_peace], [warlock].
    split; [reflexivity|]. split; [reflexivity|].
    constructor; [discriminate | constructor].
  - apply (proj1 (proj2 (search_by_isbn_spec shelf "999"))).
    repeat constructor; discriminate.
Defined.

(** ** The status of the books *)

Section StatusProperties.
Context `{J : Json}.

Import LibraryInventory.

Lemma load_books_missing self w :
  files w !! file_path self = None ->
  exists w', load_books self w = (Ok (set_books self []), w').
Proof.
  intros Hf. unfold load_books, try_except, bind, path_exists, ret. cbv beta.
  rewrite bool_decide_eq_false_2 by (rewrite Hf; by intros [? ?]).
  cbv beta iota.
  destruct (save_books_returns (set_books self []) w) as [w' ->]. eauto.
Qed.

Lemma from_dict_status r b :
  Book.from_dict r = Ok b -> getitem r "status" = Ok (Book.status b).
Proof.
  intros (items & -> & _ & _ & _ & E)%from_dict_Ok. simpl. by rewrite E.
Qed.

Lemma add_book_books self b w :
  exists w', add_book self b w = (Ok (set_books self (books self ++ [b])), w').
Proof.
  unfold add_book, bind, ret.
  destruct (save_books_returns (set_books self (books self ++ [b])) w)
    as [w' ->].
  eauto.
Qed.

Lemma load_books_valid self w :
  (forall f d records,
     files w !! file_path self = Some f ->
     json_load (data f) = Ok d ->
     iterate d = Ok records ->
     Forall (fun r => forall s, getitem r "status" = Ok s -> valid_status s)
       records) ->
  exists self' w',
    load_books self w = (Ok self', w') /\ all_valid (books self').
Proof.
  intros Hrecords. destruct (files w !! file_path self) as [f|] eqn:Hf.
  - rewrite (load_books_existing _ _ _ Hf).
    destruct (readable f); [|by repeat eexists; constructor].
    destruct (parse (data f)) as [bs|e] eqn:Hp;
      [|by repeat eexists; constructor].
    repeat eexists. simpl. revert Hp. unfold parse.
    destruct (json_load (data f)) as [d|] eqn:Hd; [simpl|discriminate].
    destruct (iterate d) as [records|] eqn:Hi; [simpl|discriminate].
    intros Hbs%rmap_Ok. specialize (Hrecords f d records eq_refl Hd Hi).
    clear Hd Hi. unfold all_valid. revert Hrecords.
    induction Hbs as [|r b rs bs Hr _ IH]; [constructor|].
    intros [Hvalid Hrest]%Forall_cons.
    constructor; [|by apply IH]. by apply Hvalid, from_dict_status.
  - destruct (load_books_missing self w Hf) as [w' ->].
    repeat eexists. constructor.
Qed.

Lemma call_on_first_valid method bs isbn r bs' :
  (forall b, valid_status (Book.status b) ->
             valid_status (Book.status (method b).2)) ->
  all_valid bs ->
  Main.call_on_first bs isbn method = Some (r, bs') ->
  all_valid bs'.
Proof.
  intros Hmethod Hbs. revert r bs'. unfold all_valid in *.
  induction Hbs as [|b bs Hb Hbs IH]; intros r bs'; simpl; [discriminate|].
  destruct (eq_str (Book.isbn b) isbn).
  - specialize (Hmethod b Hb). destruct (method b) as [r0 b0].
    intros [= <- <-]. by constructor.
  - destruct (Main.call_on_first bs isbn method) as [[r0 bs0]|];
      [|discriminate].
    intros [= <- <-]. constructor; [done|]. by eapply IH.
Qed.

Lemma change_valid method self isbn w :
  (forall b, valid_status (Book.status b) ->
             valid_status (Book.status (method b).2)) ->
  all_valid (books self) ->
  exists r self' w',
    Main.change method self isbn w = (Ok (r, self'), w') /\
    all_valid (books self').
Proof.
  intros Hmethod Hself. unfold Main.change.
  destruct (Main.call_on_first _ _ _) as [[[] bs]|] eqn:E.
  - unfold bind, ret.
    destruct (save_books_returns (set_books self bs) w) as [w' ->].
    repeat eexists. simpl. by eapply call_on_first_valid.
  - repeat eexists. simpl. by eapply call_on_first_valid.
  - by repeat eexists.
Qed.

(** C3, as the code has it: a book built without a status argument is
    "available"; a book built with one, or made by [from_dict], has the
    status it was given, unchecked; [issue] and [return_book] keep a
    status that is one of the two values, and so do the operations of
    the inventory: [add_book] of such a book, [load_books] of a file
    whose records all carry one of the two values, the two searches, and
    the issue and return actions of the menu. *)
Theorem status_stays_valid :
  (forall title author isbn,
     valid_status (Book.status (Book.init title author isbn None)))
  /\ (forall title author isbn status,
        Book.status (Book.init title author isbn (Some status)) = status)
  /\ (forall record b,
        Book.from_dict record = Ok b ->
        getitem record "status" = Ok (Book.status b))
  /\ (forall b,
        valid_status (Book.status b) ->
        valid_status (Book.status (Book.issue b).2) /\
        valid_status (Book.status (Book.return_book b).2))
  /\ (forall self b w,
        all_valid (books self) -> valid_status (Book.status b) ->
        exists self' w',
          add_book self b w = (Ok self', w') /\ all_valid (books self'))
  /\ (forall self w,
        (forall f d records,
           files w !! file_path self = Some f ->
           json_load (data f) = Ok d ->
           iterate d = Ok records ->
           Forall (fun r => forall s, getitem r "status" = Ok s ->
                                      valid_status s) records) ->
        exists self' w',
          load_books self w = (Ok self', w') /\ all_valid (books self'))
  /\ (forall self needle found,
        all_valid (books self) ->
        search_by_title self needle = Ok found -> all_valid found)
  /\ (forall self isbn b,
        all_valid (books self) ->
        search_by_isbn self isbn = Some b -> valid_status (Book.status b))
  /\ (forall self isbn w,
        all_valid (books self) ->
        (exists r self' w',
           Main.issue self isbn w = (Ok (r, self'), w') /\
           all_valid (books self')) /\
        (exists r self' w',
           Main.return_book self isbn w = (Ok (r, self'), w') /\
           all_valid (books self'))).
Proof.
  split; [by left|]. split; [done|]. split; [apply from_dict_status|].
  split; [by split; [apply issue_valid | apply return_valid]|].
  split.
  { intros self b w Hself Hb. destruct (add_book_books self b w) as [w' ->].
    repeat eexists. simpl. apply Forall_app. split; [done|by constructor]. }
  split; [apply load_books_valid|].
  split.
  { intros self needle found Hself. unfold search_by_title.
    revert found. unfold all_valid in *.
    induction Hself as [|b bs Hb Hbs IH]; intros found; simpl.
    - intros [= <-]. constructor.
    - destruct (lower_method (Book.title b)); [simpl|discriminate].
      destruct (rfilter _ bs) as [found'|]; [simpl|discriminate].
      intros [= <-]. specialize (IH found' eq_refl).
      destruct (contains _ _); [by constructor | done]. }
  split.
  { intros self isbn b Hself Hfound.
    apply first_with_isbn_Some in Hfound as (before & after & Hbs & _).
    unfold all_valid in Hself. rewrite Hbs in Hself.
    apply Forall_app in Hself as [_ Hself]. by inversion Hself. }
  intros self isbn w Hself. split; apply change_valid; auto using issue_valid, return_valid.
Qed.

End StatusProperties.

(** C3 as it was claimed fails: [from_dict] makes a book of a record whose
    status is "lost". *)
Lemma from_dict_keeps_any_status :
  exists b,
    Book.from_dict lost_record = Ok b /\ ~ valid_status (Book.status b).
Proof.
  eexists. split; [reflexivity|]. simpl. by intros [? | ?].
Qed.

Lemma status_stays_valid_witness :
  valid_status (Book.status (Book.issue war_and_peace).2)
  /\ valid_status (Book.status (Book.return_book dune).2).
Proof.
  pose proof (proj1 (proj2 (proj2 (proj2 (@status_stays_valid shelf_json)))))
    as Hkept.
  split.
  - apply (Hkept war_and_peace). left. reflexivity.
  - apply (Hkept dune). right. reflexivity.
Defined.

(** * Further properties of the code *)

(** ** Book: how the transitions compose *)

(** X1: issuing an available book and returning it gives back the very
    same book, both calls answering success; so does returning an issued
    book and issuing it again. *)
Theorem issue_return_round_trip (b : Book.t) :
  (Book.status b = VStr "available" ->
   (Book.issue b).1 = true /\
   Book.return_book (Book.issue b).2 = (true, b))
  /\ (Book.status b = VStr "issued" ->
      (Book.return_book b).1 = true /\
      Book.issue (Book.return_book b).2 = (true, b)).
Proof. destruct b as [t a i s]; simpl. split; intros ->; by split. Qed.

Lemma issue_return_round_trip_witness :
  Book.return_book (Book.issue war_and_peace).2 = (true, war_and_peace)
  /\ Book.issue (Book.return_book dune).2 = (true, dune).
Proof.
  split.
  - apply (proj1 (issue_return_round_trip war_and_peace)). reflexivity.
  - apply (proj2 (issue_return_round_trip dune)). reflexivity.
Defined.

(** X2: [is_available] tells beforehand what [issue] will answer; after
    an [issue], whatever it answered, the book is not available; a book
    that is available cannot be returned, and a book that has just been
    returned is available. *)
Theorem is_available_and_transitions (b : Book.t) :
  (Book.issue b).1 = Book.is_available b
  /\ Book.is_available (Book.issue b).2 = false
  /\ (Book.is_available b = true -> Book.return_book b = (false, b))
  /\ ((Book.return_book b).1 = true ->
      Book.is_available (Book.return_book b).2 = true).
Proof.
  unfold Book.is_available, Book.issue, Book.return_book.
  destruct b as [t a i s]; simpl. repeat split.
  - by destruct (eq_str s "available").
  - by destruct (eq_str s "available") eqn:E.
  - intros ->%eq_str_true. done.
  - by destruct (eq_str s "issued").
Qed.

Lemma is_available_and_transitions_witness :
  Book.return_book war_and_peace = (false, war_and_peace)
  /\ Book.is_available (Book.return_book dune).2 = true.
Proof.
  split.
  - apply (proj1 (proj2 (proj2 (is_available_and_transitions war_and_peace)))).
    reflexivity.
  - apply (proj2 (proj2 (proj2 (is_available_and_transitions dune)))).
    reflexivity.
Defined.

(** X3: neither [issue] nor [return_book] ever touches the title, the
    author or the isbn of a book, and a status they leave changed is one
    of the two strings. *)
Theorem transitions_keep_identity (b : Book.t) :
  let after_issue := (Book.issue b).2 in
  let after_return := (Book.return_book b).2 in
  (Book.title after_issue, Book.author after_issue, Book.isbn after_issue)
  = (Book.title b, Book.author b, Book.isbn b)
  /\ (Book.title after_return, Book.author after_return, Book.isbn after_return)
     = (Book.title b, Book.author b, Book.isbn b)
  /\ (Book.status after_issue = Book.status b
      \/ Book.status after_issue = VStr "issued")
  /\ (Book.status after_return = Book.status b
      \/ Book.status after_return = VStr "available").
Proof.
  unfold Book.issue, Book.return_book.
  destruct (eq_str (Book.status b) "available"),
    (eq_str (Book.status b) "issued"); simpl; auto.
Qed.

(** ** Book: records that are not as expected *)

(** X4: [from_dict] of a value that is not a dict (a list, a string, a
    number, a boolean, [None]) raises [TypeError]. *)
Theorem from_dict_not_a_dict (data : value) :
  (forall items, data <> VDict items) ->
  Book.from_dict data = Raise TypeError.
Proof. intros Hd. destruct data; try done. by destruct (Hd items). Qed.

Lemma from_dict_not_a_dict_witness :
  Book.from_dict (VList [Book.to_dict dune]) = Raise TypeError.
Proof. apply from_dict_not_a_dict. discriminate. Defined.

(** X5: the [KeyError] of [from_dict] names the first missing key in the
    order title, author, isbn, status, whatever else is missing. *)
Theorem from_dict_first_missing_key (items : list (string * value)) :
  (dict_get items "title" = None ->
   Book.from_dict (VDict items) = Raise (KeyError "title"))
  /\ (is_Some (dict_get items "title") ->
      dict_get items "author" = None ->
      Book.from_dict (VDict items) = Raise (KeyError "author"))
  /\ (is_Some (dict_get items "title") ->
      is_Some (dict_get items "author") ->
      dict_get items "isbn" = None ->
      Book.from_dict (VDict items) = Raise (KeyError "isbn"))
  /\ (is_Some (dict_get items "title") ->
      is_Some (dict_get items "author") ->
      is_Some (dict_get items "isbn") ->
      dict_get items "status" = None ->
      Book.from_dict (VDict items) = Raise (KeyError "status")).
Proof.
  unfold Book.from_dict. simpl. repeat split.
  - by intros ->.
  - by intros [? ->] ->.
  - by intros [? ->] [? ->] ->.
  - by intros [? ->] [? ->] [? ->] ->.
Qed.

Lemma from_dict_first_missing_key_witness :
  Book.from_dict short_record = Raise (KeyError "isbn")
  /\ Book.from_dict (VDict []) = Raise (KeyError "title").
Proof.
  split.
  - apply (proj1 (proj2 (proj2 (from_dict_first_missing_key
             [("title", VStr "Emma"); ("author", VStr "Jane Austen");
              ("status", VStr "available")]))));
      [by eexists | by eexists | reflexivity].
  - apply (proj1 (from_dict_first_missing_key [])). reflexivity.
Defined.

(** X6: [from_dict] reads the four keys and nothing else: two dicts that
    agree on them give the same result, whatever other entries they have
    and in whatever order their entries come. *)
Theorem from_dict_reads_four_keys (items items' : list (string * value)) :
  (forall key, key ∈ keys -> dict_get items key = dict_get items' key) ->
  Book.from_dict (VDict items) = Book.from_dict (VDict items').
Proof.
  intros Hsame. unfold Book.from_dict. simpl.
  by rewrite <- !Hsame by in_list.
Qed.

Lemma from_dict_reads_four_keys_witness :
  Book.from_dict
    (VDict [("pages", VInt 412); ("status", VStr "issued");
            ("isbn", VStr "222"); ("author", VStr "Frank Herbert");
            ("title", VStr "Dune")])
  = Book.from_dict (Book.to_dict dune).
Proof.
  apply from_dict_reads_four_keys. intros key Hkey.
  repeat (apply elem_of_cons in Hkey as [-> | Hkey]; [reflexivity|]).
  by apply elem_of_nil in Hkey.
Defined.

(** ** Saving: what reaches the disk *)

Section SavingProperties.
Context `{J : Json}.

Import LibraryInventory.

Implicit Types (self : LibraryInventory.t) (w : world).

Lemma save_books_blocked self w :
  can_open w (file_path self) = false ->
  save_books self w
  = (Ok tt,
     World (files w) (creatable w)
       (log w ++ [Error "Could not save catalog: " OSError])).
Proof.
  unfold can_open, save_books, try_except, bind, open_w, logging_error.
  by destruct (files w !! file_path self) as [f|]; intros ->.
Qed.

Lemma save_books_opened self w :
  can_open w (file_path self) = true ->
  save_books self w
  = (Ok tt,
     World
       (<[file_path self :=
            File (json_dump (document self)).1
              (readable_after w (file_path self)) true]> (files w))
       (creatable w)
       (log w ++ [match (json_dump (document self)).2 with
                  | Some e => Error "Could not save catalog: " e
                  | None => Info "Catalog saved."
                  end])).
Proof.
  unfold can_open, save_books, try_except, bind, open_w, write, set_file,
    raise, logging_info, logging_error, readable_after, document.
  destruct (files w !! file_path self) as [f|]; intros ->; simpl;
    destruct (json_dump _) as [text [e|]]; simpl;
    rewrite lookup_insert_eq; simpl; by rewrite insert_insert_eq.
Qed.

Lemma load_books_missing_eq self w :
  files w !! file_path self = None ->
  load_books self w
  = (Ok (set_books self []), (save_books (set_books self []) w).2).
Proof.
  intros Hf. unfold load_books, try_except, bind, path_exists, ret. cbv beta.
  rewrite bool_decide_eq_false_2 by (rewrite Hf; by intros [? ?]).
  cbv beta iota.
  by destruct (save_books_returns (set_books self []) w) as [w' ->].
Qed.

(** X7: [save_books] never raises, adds exactly one line to the log, and
    leaves every file other than its own as it was, as well as what can
    be created. *)
Theorem save_books_frame self w :
  exists w' entry,
    save_books self w = (Ok tt, w') /\
    log w' = log w ++ [entry] /\
    creatable w' = creatable w /\
    (forall path, path <> file_path self -> files w' !! path = files w !! path).
Proof.
  destruct (can_open w (file_path self)) eqn:Hopen.
  - rewrite (save_books_opened _ _ Hopen). do 2 eexists.
    split; [done|]. split; [done|]. split; [done|].
    intros path Hpath. simpl. by rewrite lookup_insert_ne.
  - rewrite (save_books_blocked _ _ Hopen). by do 2 eexists.
Qed.



End SavingProperties.


(** ** Loading: the first run, and a catalog that is in order *)

Section LoadingProperties.
Context `{J : Json}.

Import LibraryInventory.

Implicit Types (self : LibraryInventory.t) (w : world).

Lemma is_record_from_dict r :
  is_record r = true -> exists b, Book.from_dict r = Ok b.
Proof.
  destruct r as [| | | | | |items]; try discriminate. unfold is_record, keys.
  simpl. rewrite !andb_true_iff, !bool_decide_eq_true.
  intros ([t Ht] & [a Ha] & [i Hi] & [s Hs] & _).
  exists (Book.mk t a i s). apply from_dict_Ok. exists items. by simpl.
Qed.

Lemma rmap_from_dict_records records :
  Forall (fun r => is_record r = true) records ->
  exists bs,
    rmap Book.from_dict records = Ok bs /\ Forall2 record_of records bs.
Proof.
  induction 1 as [|r records Hr _ (bs & Hbs & Hall)].
  - exists []. by split; [|constructor].
  - destruct (is_record_from_dict r Hr) as [b Hb].
    exists (b :: bs). simpl. rewrite Hb, Hbs. split; [done|].
    constructor; [|done]. by apply from_dict_Ok.
Qed.

(** X11: the first run.  With no file at the path, a path where a file
    can be created, and a [json.dump] that writes the empty list to its
    end, [load_books] leaves the inventory empty and a new, readable and
    writable file at the path that holds that text; the log has the line
    of the save and none of a load. *)
Theorem load_books_first_run self w text :
  files w !! file_path self = None ->
  creatable w (file_path self) = true ->
  json_dump (VList []) = (text, None) ->
  load_books self w
  = (Ok (set_books self []),
     World (<[file_path self := File text true true]> (files w))
       (creatable w) (log w ++ [Info "Catalog saved."])).
Proof.
  intros Hf Hc Hdump. rewrite (load_books_missing_eq _ _ Hf).
  rewrite save_books_opened by (unfold can_open; simpl; by rewrite Hf).
  unfold document, readable_after. simpl. by rewrite Hf, Hdump.
Qed.

(** X12: the first run in a place where no file can be created: the
    inventory is empty all the same, no file appears, and what the log
    keeps is the failure of the save. *)
Theorem load_books_first_run_blocked self w :
  files w !! file_path self = None ->
  creatable w (file_path self) = false ->
  load_books self w
  = (Ok (set_books self []),
     World (files w) (creatable w)
       (log w ++ [Error "Could not save catalog: " OSError])).
Proof.
  intros Hf Hc. rewrite (load_books_missing_eq _ _ Hf).
  by rewrite save_books_blocked by (unfold can_open; simpl; by rewrite Hf).
Qed.

End LoadingProperties.

Lemma load_books_first_run_witness :
  @LibraryInventory.load_books empty_json shelf empty_world
  = (Ok (LibraryInventory.mk "catalog.json" []),
     World {[ "catalog.json" := File "[]" true true ]} (fun _ => true)
       [Info "Catalog saved."]).
Proof.
  rewrite (@load_books_first_run empty_json shelf empty_world "[]");
    [| reflexivity..].
  reflexivity.
Defined.

Lemma load_books_first_run_blocked_witness :
  @LibraryInventory.load_books empty_json shelf sealed_world
  = (Ok (LibraryInventory.mk "catalog.json" []),
     World ∅ (fun _ => false) [Error "Could not save catalog: " OSError]).
Proof.
  rewrite (@load_books_first_run_blocked empty_json shelf sealed_world);
    reflexivity.
Defined.

(** ** Adding a book *)

Section AddingProperties.
Context `{J : Json}.

Import LibraryInventory.

Implicit Types (self : LibraryInventory.t) (w : world) (b : Book.t).

Lemma add_book_eq self b w :
  add_book self b w
  = (Ok (mk (file_path self) (books self ++ [b])),
     (save_books (mk (file_path self) (books self ++ [b])) w).2).
Proof.
  unfold add_book, bind, ret, set_books.
  by destruct (save_books_returns (mk (file_path self) (books self ++ [b])) w)
    as [w' ->].
Qed.

Lemma first_with_isbn_app bs bs' isbn :
  first_with_isbn (bs ++ bs') isbn
  = match first_with_isbn bs isbn with
    | Some found => Some found
    | None => first_with_isbn bs' isbn
    end.
Proof.
  induction bs as [|b bs IH]; simpl; [done|].
  by destruct (eq_str (Book.isbn b) isbn).
Qed.

(** X15: [add_book] checks nothing: the book goes to the end of the list
    whether or not its isbn is already there, and the books before it keep
    their places.  A lookup by isbn afterwards finds what it found before
    whenever it found something; the new book is found only under an isbn
    that no earlier book has. *)
Theorem add_book_then_search_by_isbn self b w isbn :
  exists self' w',
    add_book self b w = (Ok self', w') /\
    display_all self' = display_all self ++ [b] /\
    search_by_isbn self' isbn
    = match search_by_isbn self isbn with
      | Some found => Some found
      | None => if eq_str (Book.isbn b) isbn then Some b else None
      end.
Proof.
  rewrite add_book_eq. do 2 eexists. split; [done|]. split; [done|].
  unfold search_by_isbn. simpl. by rewrite first_with_isbn_app.
Qed.


End AddingProperties.


(** ** Searching by title: edge cases *)

Lemma lower_char_idem c : lower_char (lower_char c) = lower_char c.
Proof. by destruct c as [[] [] [] [] [] [] [] []]. Qed.

Lemma lower_idem s : lower (lower s) = lower s.
Proof.
  induction s as [|c s IH]; simpl; [done|]. by rewrite lower_char_idem, IH.
Qed.

Lemma contains_empty hay : contains hay "" = true.
Proof. by destruct hay. Qed.

Lemma filter_all {A} (p : A -> bool) xs :
  Forall (fun x => p x = true) xs -> List.filter p xs = xs.
Proof. induction 1 as [|x xs Hx _ IH]; simpl; [done|]. by rewrite Hx, IH. Qed.

Lemma search_by_title_raises self needle :
  Exists (fun b => ~ text_title b) (LibraryInventory.books self) ->
  LibraryInventory.search_by_title self needle = Raise AttributeError.
Proof.
  unfold LibraryInventory.search_by_title.
  induction 1 as [b bs Hb | b bs _ IH]; simpl.
  - destruct (Book.title b) eqn:E; simpl; try done. destruct Hb. by eexists.
  - destruct (lower_method (Book.title b)) as [hay|e] eqn:E; simpl.
    + by rewrite IH.
    + destruct (Book.title b); simpl in E; congruence.
Qed.

(** X18: the empty search string is in every title: with it,
    [search_by_title] returns all the books of an inventory whose titles
    are text. *)
Theorem search_by_title_empty_string (self : LibraryInventory.t) :
  Forall text_title (LibraryInventory.books self) ->
  LibraryInventory.search_by_title self ""
  = Ok (LibraryInventory.display_all self).
Proof.
  intros Htext. rewrite search_by_title_text by done. f_equal.
  apply filter_all. eapply Forall_impl; [exact Htext|].
  intros b [s Hs]. unfold title_matches. rewrite Hs. apply contains_empty.
Qed.

Lemma search_by_title_empty_string_witness :
  LibraryInventory.search_by_title shelf "" = Ok [war_and_peace; dune; warlock].
Proof.
  apply (search_by_title_empty_string shelf). repeat constructor; by eexists.
Defined.

(** X19: the case of the search string plays no part: searching for its
    lower case form gives the same answer, whatever the inventory holds. *)
Theorem search_by_title_any_case (self : LibraryInventory.t) (needle : string) :
  LibraryInventory.search_by_title self (lower needle)
  = LibraryInventory.search_by_title self needle.
Proof. unfold LibraryInventory.search_by_title. by rewrite lower_idem. Qed.

(** X20: one stored title that is not a string makes every search by
    title raise [AttributeError], for any search string and wherever the
    book stands in the list: no partial result is returned. *)
Theorem search_by_title_needs_text_titles
    (self : LibraryInventory.t) (b : Book.t) (needle : string) :
  b ∈ LibraryInventory.books self ->
  ~ text_title b ->
  LibraryInventory.search_by_title self needle = Raise AttributeError.
Proof.
  intros Hin Hb. apply search_by_title_raises, Exists_exists. eauto.
Qed.

Lemma search_by_title_needs_text_titles_witness :
  LibraryInventory.search_by_title
    (LibraryInventory.mk "catalog.json" [war_and_peace; numbered; warlock])
    "war"
  = Raise AttributeError.
Proof.
  apply (search_by_title_needs_text_titles _ numbered).
  - in_list.
  - intros [s Hs]. discriminate.
Defined.

(** X21: after [add_book] of a book with a text title to an inventory
    whose titles are text, a search by title returns what it returned
    before, followed by the new book if its title matches. *)
Theorem add_book_then_search_by_title `{J : Json}
    (self : LibraryInventory.t) (b : Book.t) (w : world) (needle : string) :
  Forall text_title (LibraryInventory.books self) ->
  text_title b ->
  exists self' w' found,
    LibraryInventory.add_book self b w = (Ok self', w') /\
    LibraryInventory.search_by_title self needle = Ok found /\
    LibraryInventory.search_by_title self' needle
    = Ok (found ++ if title_matches needle b then [b] else []).
Proof.
  intros Hself Hb. rewrite add_book_eq. do 3 eexists. split; [done|].
  split; [by apply search_by_title_text|].
  rewrite search_by_title_text by (apply Forall_app; split; [done|by constructor]).
  simpl. rewrite List.filter_app. simpl. by destruct (title_matches needle b).
Qed.

Lemma add_book_then_search_by_title_witness :
  exists self' w' found,
    @LibraryInventory.add_book shelf_json
      (LibraryInventory.mk "catalog.json" [war_and_peace; dune]) warlock
      empty_world
    = (Ok self', w') /\
    LibraryInventory.search_by_title
      (LibraryInventory.mk "catalog.json" [war_and_peace; dune]) "WAR"
    = Ok found /\
    LibraryInventory.search_by_title self' "WAR"
    = Ok (found ++ if title_matches "WAR" warlock then [warlock] else []).
Proof.
  apply add_book_then_search_by_title.
  - repeat constructor; by eexists.
  - by eexists.
Defined.

(** ** The search of the menu *)

Lemma menu_search_eq inventory title w :
  Main.search inventory title w
  = match LibraryInventory.search_by_title inventory title with
    | Ok [] => (Ok [Main.Line "No books found."], w)
    | Ok found => (Ok (Main.BookLine <$> found), w)
    | Raise e =>
        (Ok [Main.ErrorLine e],
         World (files w) (creatable w) (log w ++ [Error "Runtime error: " e]))
    end.
Proof.
  unfold Main.search, try_except, bind, lift, ret, logging_error.
  by destruct (LibraryInventory.search_by_title inventory title) as [[|??]|].
Qed.

(** X22: on an inventory whose titles are text, the search of the menu
    prints the matching books in stored order, or the one line "No books
    found." when there is none, and changes nothing: no file, no log
    line. *)
Theorem menu_search_prints_matches inventory title w :
  Forall text_title (LibraryInventory.books inventory) ->
  Main.search inventory title w
  = (Ok match List.filter (title_matches title)
                 (LibraryInventory.books inventory) with
        | [] => [Main.Line "No books found."]
        | found => Main.BookLine <$> found
        end,
     w).
Proof.
  intros Htext. rewrite menu_search_eq, search_by_title_text by done.
  by destruct (List.filter _ _).
Qed.


Lemma menu_search_prints_matches_witness :
  Main.search shelf "WAR" empty_world
  = (Ok [Main.BookLine war_and_peace; Main.BookLine warlock], empty_world)
  /\ Main.search shelf "moby" empty_world
     = (Ok [Main.Line "No books found."], empty_world).
Proof.
  split.
  - rewrite (menu_search_prints_matches shelf "WAR" empty_world);
      [reflexivity|]. repeat constructor; by eexists.
  - rewrite (menu_search_prints_matches shelf "moby" empty_world);
      [reflexivity|]. repeat constructor; by eexists.
Defined.


(** ** Issuing and returning through the menu *)

Section MenuChanges.
Context `{J : Json}.

Import LibraryInventory.

Implicit Types (inventory : LibraryInventory.t) (w : world) (b : Book.t).

Lemma call_on_first_None bs isbn method :
  first_with_isbn bs isbn = None ->
  Main.call_on_first bs isbn method = None.
Proof.
  induction bs as [|b bs IH]; simpl; [done|].
  destruct (eq_str (Book.isbn b) isbn); [done|]. by intros ->%IH.
Qed.

Lemma call_on_first_match bs isbn method b before after :
  bs = before ++ b :: after ->
  Book.isbn b = VStr isbn ->
  Forall (fun b' => Book.isbn b' <> VStr isbn) before ->
  Main.call_on_first bs isbn method
  = Some ((method b).1, before ++ (method b).2 :: after).
Proof.
  intros -> Hb Hbefore. induction Hbefore as [|b0 before Hb0 _ IH]; simpl.
  - apply eq_str_true in Hb. rewrite Hb. by destruct (method b).
  - apply eq_str_false in Hb0. by rewrite Hb0, IH.
Qed.

Lemma change_outcome method inventory isbn w :
  (forall b, (method b).1 = false -> (method b).2 = b) ->
  exists r inventory' w',
    Main.change method inventory isbn w = (Ok (r, inventory'), w') /\
    r = match search_by_isbn inventory isbn with
        | Some b => (method b).1
        | None => false
        end /\
    (r = false -> inventory' = inventory /\ w' = w) /\
    (r = true -> w' = (save_books inventory' w).2) /\
    length (books inventory') = length (books inventory).
Proof.
  intros Hmethod. unfold Main.change, search_by_isbn.
  destruct (first_with_isbn (books inventory) isbn) as [b|] eqn:Hfirst.
  - apply first_with_isbn_Some in Hfirst as (before & after & Hbs & Hb & Hnone).
    rewrite (call_on_first_match _ _ method _ _ _ Hbs Hb Hnone).
    specialize (Hmethod b). destruct (method b) as [[] b']; simpl in *.
    + unfold bind, ret.
      destruct (save_books_returns (set_books inventory (before ++ b' :: after)) w)
        as [w' Hw']. rewrite Hw'. do 3 eexists. split; [done|].
      split; [done|]. split; [done|]. split; [by rewrite Hw'|].
      simpl. rewrite Hbs, !length_app. done.
    + rewrite Hmethod by done. do 3 eexists. split; [done|]. split; [done|].
      split; [|split; [done | simpl; by rewrite Hbs]].
      intros _. split; [|done]. destruct inventory; simpl in *. by rewrite Hbs.
  - rewrite (call_on_first_None _ _ _ Hfirst). by do 3 eexists.
Qed.

(** X24: through the menu, an issue succeeds exactly when the first
    stored book with the isbn is available, and a return exactly when
    that book has the status "issued"; later books with the same isbn are
    never looked at.  A failure changes nothing, in memory or on disk,
    and is not logged; a success is followed by one [save_books] of the
    changed inventory; the number of books stays the same either way. *)
Theorem menu_issue_and_return_outcome inventory isbn w :
  (exists r inventory' w',
     Main.issue inventory isbn w = (Ok (r, inventory'), w') /\
     r = match search_by_isbn inventory isbn with
         | Some b => Book.is_available b
         | None => false
         end /\
     (r = false -> inventory' = inventory /\ w' = w) /\
     (r = true -> w' = (save_books inventory' w).2) /\
     length (books inventory') = length (books inventory))
  /\ (exists r inventory' w',
        Main.return_book inventory isbn w = (Ok (r, inventory'), w') /\
        r = match search_by_isbn inventory isbn with
            | Some b => eq_str (Book.status b) "issued"
            | None => false
            end /\
        (r = false -> inventory' = inventory /\ w' = w) /\
        (r = true -> w' = (save_books inventory' w).2) /\
        length (books inventory') = length (books inventory)).
Proof.
  split.
  - destruct (change_outcome Book.issue inventory isbn w)
      as (r & inventory' & w' & H1 & H2 & H3).
    { intros b. unfold Book.issue. by destruct (eq_str _ _). }
    exists r, inventory', w'. split; [done|]. split; [|done].
    rewrite H2. destruct (search_by_isbn inventory isbn) as [b|]; [|done].
    unfold Book.issue, Book.is_available. by destruct (eq_str _ _).
  - destruct (change_outcome Book.return_book inventory isbn w)
      as (r & inventory' & w' & H1 & H2 & H3).
    { intros b. unfold Book.return_book. by destruct (eq_str _ _). }
    exists r, inventory', w'. split; [done|]. split; [|done].
    rewrite H2. destruct (search_by_isbn inventory isbn) as [b|]; [|done].
    unfold Book.return_book. by destruct (eq_str _ _).
Qed.

Lemma change_true method inventory isbn w inventory' w' :
  Main.change method inventory isbn w = (Ok (true, inventory'), w') ->
  exists b before after,
    books inventory = before ++ b :: after /\
    Book.isbn b = VStr isbn /\
    Forall (fun b' => Book.isbn b' <> VStr isbn) before /\
    (method b).1 = true /\
    inventory' = mk (file_path inventory) (before ++ (method b).2 :: after).
Proof.
  unfold Main.change.
  destruct (first_with_isbn (books inventory) isbn) as [b|] eqn:Hfirst.
  - apply first_with_isbn_Some in Hfirst as (before & after & Hbs & Hb & Hnone).
    rewrite (call_on_first_match _ _ method _ _ _ Hbs Hb Hnone).
    destruct (method b) as [[] b'] eqn:Hm; simpl.
    + unfold bind, ret.
      destruct (save_books_returns (set_books inventory (before ++ b' :: after)) w)
        as [w0 ->].
      intros [= <- <-]. exists b, before, after. by rewrite Hm.
    + discriminate.
  - by rewrite (call_on_first_None _ _ _ Hfirst).
Qed.

Lemma change_first method inventory isbn w b before after :
  books inventory = before ++ b :: after ->
  Book.isbn b = VStr isbn ->
  Forall (fun b' => Book.isbn b' <> VStr isbn) before ->
  Main.change method inventory isbn w
  = if (method b).1
    then (Ok (true, mk (file_path inventory) (before ++ (method b).2 :: after)),
          (save_books (mk (file_path inventory) (before ++ (method b).2 :: after))
             w).2)
    else (Ok (false, mk (file_path inventory) (before ++ (method b).2 :: after)),
          w).
Proof.
  intros Hbs Hb Hnone. unfold Main.change.
  rewrite (call_on_first_match _ _ method _ _ _ Hbs Hb Hnone).
  destruct (method b) as [[] b']; simpl; [|done].
  unfold bind, ret, set_books.
  by destruct (save_books_returns (mk (file_path inventory) (before ++ b' :: after)) w)
    as [w0 ->].
Qed.

(** X25: a return through the menu undoes an issue through the menu: after
    a successful issue of an isbn, returning the same isbn succeeds and
    the inventory holds again exactly the books it held before the
    issue. *)
Theorem menu_issue_then_return inventory isbn w inventory' w' :
  Main.issue inventory isbn w = (Ok (true, inventory'), w') ->
  exists w'',
    Main.return_book inventory' isbn w' = (Ok (true, inventory), w'').
Proof.
  intros (b & before & after & Hbs & Hb & Hnone & Hissued & ->)%change_true.
  unfold Main.return_book.
  assert (Hstatus : Book.status b = VStr "available").
  { apply eq_str_true. revert Hissued. unfold Book.issue.
    by destruct (eq_str _ _). }
  destruct b as [t a i s]; simpl in *. subst s.
  erewrite change_first; [|reflexivity|exact Hb|exact Hnone]. simpl.
  eexists. f_equal. f_equal. destruct inventory; simpl in *. by subst.
Qed.

(** X26: with several copies under one isbn, the menu reaches the first
    one only: after a successful issue of an isbn, issuing the same isbn
    again fails and changes nothing, even when another copy with that
    isbn is still available. *)
Theorem menu_issue_twice inventory isbn w inventory' w' :
  Main.issue inventory isbn w = (Ok (true, inventory'), w') ->
  Main.issue inventory' isbn w' = (Ok (false, inventory'), w').
Proof.
  intros (b & before & after & Hbs & Hb & Hnone & Hissued & ->)%change_true.
  unfold Main.issue.
  assert (Hstatus : Book.status b = VStr "available").
  { apply eq_str_true. revert Hissued. unfold Book.issue.
    by destruct (eq_str _ _). }
  destruct b as [t a i s]; simpl in *. subst s.
  erewrite change_first; [|reflexivity|exact Hb|exact Hnone]. done.
Qed.

End MenuChanges.

Lemma menu_issue_and_return_outcome_witness :
  exists w',
    @Main.issue shelf_json shelf "222" empty_world = (Ok (false, shelf), w') /\
    w' = empty_world.
Proof.
  destruct (proj1 (@menu_issue_and_return_outcome shelf_json shelf "222" empty_world))
    as (r & inventory' & w' & Hrun & Hr & Hsame & _).
  vm_compute in Hr. destruct (Hsame Hr) as [-> ->]. subst r.
  exists empty_world. split; [exact Hrun | reflexivity].
Defined.

Lemma menu_issue_then_return_witness :
  exists w'',
    @Main.return_book shelf_json
      (LibraryInventory.mk "catalog.json" [war_and_peace; dune; second_copy])
      "222" (@Main.issue shelf_json copies "222" empty_world).2
    = (Ok (true, copies), w'').
Proof.
  apply (@menu_issue_then_return shelf_json copies "222" empty_world).
  vm_compute. reflexivity.
Defined.

Lemma menu_issue_twice_witness :
  @Main.issue shelf_json
    (LibraryInventory.mk "catalog.json" [war_and_peace; dune; second_copy])
    "222" (@Main.issue shelf_json copies "222" empty_world).2
  = (Ok (false,
         LibraryInventory.mk "catalog.json" [war_and_peace; dune; second_copy]),
     (@Main.issue shelf_json copies "222" empty_world).2).
Proof.
  apply (@menu_issue_twice shelf_json copies "222" empty_world).
  vm_compute. reflexivity.
Defined.

(** ** Scenarios at the menu *)

Section MenuScenarios.
Context `{J : Json}.

Import LibraryInventory.

Implicit Types (inventory : LibraryInventory.t) (w : world) (b : Book.t).

Lemma reload_after_save `{!JsonLawful} self w :
  log (save_books self w).2 = log w ++ [Info "Catalog saved."] ->
  (forall f,
     files (save_books self w).2 !! file_path self = Some f ->
     readable f = true) ->
  exists w2, init (Some (file_path self)) (save_books self w).2 = (Ok self, w2).
Proof.
  destruct (can_open w (file_path self)) eqn:Hopen.
  - rewrite (save_books_opened _ _ Hopen). cbn [snd log files].
    intros Hlog%app_inv_head Hread.
    destruct (json_dump (document self)) as [text [e|]] eqn:Hdump;
      [discriminate|]. cbn [fst] in *.
    specialize (Hread _ (lookup_insert_eq _ _ _)). cbn [readable] in Hread.
    eexists. unfold init. cbn [default].
    erewrite load_books_existing by apply lookup_insert_eq.
    cbn [readable data]. rewrite Hread. unfold parse.
    rewrite (json_load_dump _ _ Hdump). simpl.
    rewrite rmap_from_to_dict. by destruct self.
  - rewrite (save_books_blocked _ _ Hopen). cbn [snd log].
    by intros ?%app_inv_head.
Qed.

(** X27: a book added through the menu under an isbn that no stored book
    has can be issued through the menu right away, and the inventory then
    holds the old books followed by the new one with the status
    "issued". *)
Theorem menu_add_then_issue inventory title author isbn w :
  search_by_isbn inventory isbn = None ->
  exists inventory1 w1 inventory2 w2,
    Main.add inventory title author isbn w = (Ok inventory1, w1) /\
    Main.issue inventory1 isbn w1 = (Ok (true, inventory2), w2) /\
    books inventory2
    = books inventory
      ++ [Book.mk (VStr title) (VStr author) (VStr isbn) (VStr "issued")].
Proof.
  intros Hnone%first_with_isbn_None. unfold Main.add, Main.issue.
  rewrite add_book_eq. do 4 eexists. split; [done|].
  erewrite change_first; [|reflexivity|reflexivity|exact Hnone]. by simpl.
Qed.

(** X28: a copy added through the menu under the isbn of a stored book
    that is not available cannot be issued through the menu, although the
    copy itself is available: the attempt fails and changes nothing. *)
Theorem menu_add_copy_then_issue inventory title author isbn w b :
  search_by_isbn inventory isbn = Some b ->
  Book.is_available b = false ->
  exists inventory1 w1,
    Main.add inventory title author isbn w = (Ok inventory1, w1) /\
    Book.is_available
      (Book.mk (VStr title) (VStr author) (VStr isbn) (VStr "available"))
    = true /\
    Main.issue inventory1 isbn w1 = (Ok (false, inventory1), w1).
Proof.
  intros (before & after & Hbs & Hb & Hnone)%first_with_isbn_Some Hbusy.
  unfold Main.add, Main.issue. rewrite add_book_eq. do 2 eexists.
  split; [done|]. split; [done|].
  erewrite (change_first _ _ _ _ b before); [| |exact Hb|exact Hnone].
  2:{ simpl. rewrite Hbs, <- app_assoc. reflexivity. }
  unfold Book.issue. unfold Book.is_available in Hbusy. rewrite Hbusy. simpl.
  by rewrite Hbs, <- app_assoc.
Qed.

(** X29: an issue or a return that succeeds through the menu is on disk
    when its save went through: if the log line it leaves is "Catalog
    saved." and the file can be read, a fresh inventory on the same path
    is the changed inventory. *)
Theorem menu_change_persists `{!JsonLawful} inventory isbn w inventory' w' :
  Main.issue inventory isbn w = (Ok (true, inventory'), w')
  \/ Main.return_book inventory isbn w = (Ok (true, inventory'), w') ->
  log w' = log w ++ [Info "Catalog saved."] ->
  (forall f, files w' !! file_path inventory = Some f -> readable f = true) ->
  exists w'', init (Some (file_path inventory)) w' = (Ok inventory', w'').
Proof.
  assert (Hany : forall method,
            Main.change method inventory isbn w = (Ok (true, inventory'), w') ->
            file_path inventory' = file_path inventory /\
            w' = (save_books inventory' w).2).
  { intros method Hrun.
    pose proof Hrun as (b & before & after & Hbs & Hb & Hnone & Htrue & ->)%change_true.
    split; [done|]. rewrite (change_first _ _ _ _ _ _ _ Hbs Hb Hnone) in Hrun.
    rewrite Htrue in Hrun. by injection Hrun as <-. }
  intros [Hrun | Hrun] Hlog Hread; apply Hany in Hrun as [Hpath ->];
    rewrite <- Hpath in *; by apply reload_after_save.
Qed.

End MenuScenarios.

Lemma menu_add_then_issue_witness :
  exists inventory1 w1 inventory2 w2,
    @Main.add shelf_json shelf "Emma" "Jane Austen" "444" empty_world
    = (Ok inventory1, w1) /\
    @Main.issue shelf_json inventory1 "444" w1 = (Ok (true, inventory2), w2) /\
    LibraryInventory.books inventory2
    = LibraryInventory.books shelf
      ++ [Book.mk (VStr "Emma") (VStr "Jane Austen") (VStr "444")
            (VStr "issued")].
Proof. apply menu_add_then_issue. reflexivity. Defined.

Lemma menu_add_copy_then_issue_witness :
  exists inventory1 w1,
    @Main.add shelf_json shelf "Dune" "Frank Herbert" "222" empty_world
    = (Ok inventory1, w1) /\
    Book.is_available second_copy = true /\
    @Main.issue shelf_json inventory1 "222" w1 = (Ok (false, inventory1), w1).
Proof.
  apply (@menu_add_copy_then_issue shelf_json _ _ _ _ _ dune); reflexivity.
Defined.

Lemma menu_change_persists_witness :
  exists w'',
    @LibraryInventory.init shelf_json (Some "catalog.json")
      (@Main.issue shelf_json
         (LibraryInventory.mk "catalog.json"
            [war_and_peace; second_copy; warlock])
         "222" empty_world).2
    = (Ok shelf, w'').
Proof.
  apply (@menu_change_persists shelf_json shelf_json_lawful
           (LibraryInventory.mk "catalog.json"
              [war_and_peace; second_copy; warlock])
           "222" empty_world shelf).
  - left. vm_compute. reflexivity.
  - vm_compute. reflexivity.
  - intros f Hf. vm_compute in Hf. injection Hf as <-. reflexivity.
Defined.

(** * The log in its file *)

Section LoggedProperties.
Context `{J : Json} `{F : LogFormat}.

Import LibraryInventory.

Implicit Types (self : LibraryInventory.t) (w : world) (b : Book.t).

Lemma with_line_lookup_ne line (fs : gmap string file) path :
  path <> log_file -> with_line line fs !! path = fs !! path.
Proof.
  intros Hpath. unfold with_line. destruct (fs !! log_file); [|done].
  by rewrite lookup_insert_ne.
Qed.

Lemma with_line_insert_ne line (fs : gmap string file) path f :
  path <> log_file ->
  with_line line (<[path := f]> fs) = <[path := f]> (with_line line fs).
Proof.
  intros Hpath. unfold with_line. rewrite lookup_insert_ne by done.
  destruct (fs !! log_file); [|done]. by apply insert_insert_ne.
Qed.

(** One call, at any path: the log line is the last thing written, so the
    call does what it does with the log kept apart, and then the line
    goes to the log file. *)
Lemma logged_save_books self w :
  exists entry,
    log (save_books self w).2 = log w ++ [entry] /\
    Logged.save_books self w
    = (Ok tt, append_line (log_line (log w) entry) (save_books self w).2).
Proof.
  destruct (can_open w (file_path self)) eqn:Hopen.
  - rewrite (save_books_opened _ _ Hopen). eexists. split; [done|].
    revert Hopen.
    unfold can_open, Logged.save_books, try_except, bind, open_w, write,
      set_file, raise, Logged.logging_info, Logged.logging_error, Logged.emit,
      readable_after, document.
    destruct (files w !! file_path self) as [f|]; intros ->; simpl;
      destruct (json_dump _) as [text [e|]]; simpl;
      rewrite lookup_insert_eq; simpl; by rewrite insert_insert_eq.
  - rewrite (save_books_blocked _ _ Hopen). eexists. split; [done|].
    revert Hopen.
    unfold can_open, Logged.save_books, try_except, bind, open_w,
      Logged.logging_error, Logged.emit.
    by destruct (files w !! file_path self) as [f|]; intros ->.
Qed.

Lemma logged_load_books self w :
  exists entry,
    log (load_books self w).2 = log w ++ [entry] /\
    Logged.load_books self w
    = ((load_books self w).1,
       append_line (log_line (log w) entry) (load_books self w).2).
Proof.
  destruct (files w !! file_path self) as [f|] eqn:Hf.
  - rewrite (load_books_existing _ _ _ Hf).
    unfold Logged.load_books, try_except, bind, path_exists, read_file, lift,
      parse, ret, Logged.logging_info, Logged.logging_error, Logged.emit.
    cbv beta. rewrite bool_decide_eq_true_2 by (rewrite Hf; eauto).
    cbv beta iota. rewrite Hf.
    destruct (readable f); [|by eexists].
    destruct (json_load (data f)) as [d|]; [simpl|by eexists].
    destruct (iterate d) as [rs|]; [simpl|by eexists].
    destruct (rmap Book.from_dict rs); by eexists.
  - rewrite (load_books_missing_eq _ _ Hf).
    destruct (logged_save_books (set_books self []) w) as (entry & Hlog & Hrun).
    exists entry. split; [done|].
    unfold Logged.load_books, try_except, bind, path_exists, ret. cbv beta.
    rewrite bool_decide_eq_false_2 by (rewrite Hf; by intros [? ?]).
    cbv beta iota. by rewrite Hrun.
Qed.

Lemma logged_add_book self b w :
  exists entry,
    log (add_book self b w).2 = log w ++ [entry] /\
    Logged.add_book self b w
    = ((add_book self b w).1,
       append_line (log_line (log w) entry) (add_book self b w).2).
Proof.
  rewrite add_book_eq.
  destruct (logged_save_books (mk (file_path self) (books self ++ [b])) w)
    as (entry & Hlog & Hrun).
  exists entry. split; [done|].
  unfold Logged.add_book, bind, ret, set_books. by rewrite Hrun.
Qed.

(** Away from the log file, a line more in the log file changes nothing
    to what a call does. *)
Lemma save_books_append_line self w line :
  file_path self <> log_file ->
  save_books self (append_line line w)
  = (Ok tt, append_line line (save_books self w).2).
Proof.
  intros Hpath.
  assert (Hopen : can_open (append_line line w) (file_path self)
                  = can_open w (file_path self)).
  { unfold can_open, append_line. simpl. by rewrite with_line_lookup_ne. }
  destruct (can_open w (file_path self)) eqn:Hw.
  - rewrite (save_books_opened _ _ Hopen), (save_books_opened _ _ Hw).
    unfold append_line, readable_after. simpl.
    by rewrite with_line_lookup_ne, with_line_insert_ne.
  - by rewrite (save_books_blocked _ _ Hopen), (save_books_blocked _ _ Hw).
Qed.

Lemma load_books_append_line self w line :
  file_path self <> log_file ->
  load_books self (append_line line w)
  = ((load_books self w).1, append_line line (load_books self w).2).
Proof.
  intros Hpath.
  assert (Hlook : files (append_line line w) !! file_path self
                  = files w !! file_path self)
    by (by apply with_line_lookup_ne).
  destruct (files w !! file_path self) as [f|] eqn:Hf.
  - rewrite (load_books_existing _ _ _ Hlook), (load_books_existing _ _ _ Hf).
    by destruct (if readable f then _ else _).
  - rewrite (load_books_missing_eq _ _ Hlook), (load_books_missing_eq _ _ Hf).
    by rewrite save_books_append_line.
Qed.

(** C5, as the code has it: for an inventory kept in a file other than
    the log file, when [save_books] has written the catalog (its log line
    says so) and the file it wrote can be read, loading from the same
    path gives back the books that were saved, field for field and in the
    same order: both a fresh [LibraryInventory] on that path and a reload
    of any inventory with that path end up with exactly these books. *)
Theorem save_then_load `{!JsonLawful} self w w1 :
  file_path self <> log_file ->
  Logged.save_books self w = (Ok tt, w1) ->
  log w1 = log w ++ [Info "Catalog saved."] ->
  (forall f, files w1 !! file_path self = Some f -> readable f = true) ->
  (exists w2, Logged.init (Some (file_path self)) w1 = (Ok self, w2))
  /\ (forall other,
        file_path other = file_path self ->
        exists w2,
          Logged.load_books other w1 = (Ok (set_books other (books self)), w2)).
Proof.
  intros Hpath Hsave Hlog Hread.
  destruct (logged_save_books self w) as (entry & Hentry & Hrun).
  rewrite Hrun in Hsave. injection Hsave as <-.
  destruct (save_books_returns self w) as [w0 Hw0].
  rewrite Hw0 in *. simpl in *.
  assert (Hload : forall other,
            file_path other = file_path self ->
            exists w2,
              Logged.load_books other (append_line (log_line (log w) entry) w0)
              = (Ok (set_books other (books self)), w2)).
  { intros other Hother.
    destruct (load_after_save self w w0 Hw0 Hlog) as [_ Hback].
    { intros f Hf. apply Hread. by rewrite with_line_lookup_ne. }
    destruct (Hback other Hother) as [w2 Hw2].
    destruct (logged_load_books other (append_line (log_line (log w) entry) w0))
      as (entry' & _ & ->).
    rewrite load_books_append_line by congruence. rewrite Hw2. by eexists. }
  split; [|done].
  destruct (Hload (mk (file_path self) []) eq_refl) as [w2 Hw2].
  exists w2. unfold Logged.init. simpl. rewrite Hw2. by destruct self.
Qed.

(** X9: when the file can be opened and is not the log file, it ends up
    holding what [json.dump] wrote and nothing of what it held before.
    If the dump ran to its end the log says "Catalog saved."; if it
    stopped with an exception, the file holds the part written so far
    (the catalog that was on disk is lost) and the exception is logged. *)
Theorem save_books_overwrites self w :
  file_path self <> log_file ->
  can_open w (file_path self) = true ->
  exists w' f,
    Logged.save_books self w = (Ok tt, w') /\
    files w' !! file_path self = Some f /\
    data f = (json_dump (document self)).1 /\
    writable f = true /\
    readable f = readable_after w (file_path self) /\
    log w'
    = log w ++ [match (json_dump (document self)).2 with
                | Some e => Error "Could not save catalog: " e
                | None => Info "Catalog saved."
                end].
Proof.
  intros Hpath Hopen.
  destruct (logged_save_books self w) as (entry & Hentry & ->).
  rewrite (save_books_opened _ _ Hopen) in *. do 2 eexists.
  split; [done|]. simpl. rewrite with_line_lookup_ne by done.
  split; [apply lookup_insert_eq|]. done.
Qed.

(** X13: a readable file whose text decodes to a list of records with the
    four keys is loaded as one book per record, in the order of the
    records, each book holding the four entries of its record; the books
    the inventory had before play no part; the log gets the line of the
    load, which is appended to the log file, and every other file stays
    as it is. *)
Theorem load_books_reads_records self w f records :
  files w !! file_path self = Some f ->
  readable f = true ->
  json_load (data f) = Ok (VList records) ->
  Forall (fun r => is_record r = true) records ->
  exists bs,
    Logged.load_books self w
    = (Ok (mk (file_path self) bs),
       append_line
         (log_line (log w) (Info "Catalog loaded successfully."))
         (World (files w) (creatable w)
            (log w ++ [Info "Catalog loaded successfully."]))) /\
    Forall2 record_of records bs.
Proof.
  intros Hf Hr Hload Hrecords.
  destruct (rmap_from_dict_records records Hrecords) as (bs & Hbs & Hall).
  exists bs. split; [|done].
  destruct (logged_load_books self w) as (entry & Hentry & ->).
  revert Hentry. rewrite (load_books_existing _ _ _ Hf), Hr. unfold parse.
  rewrite Hload. simpl. rewrite Hbs. simpl.
  by intros [= <-]%app_inv_head.
Qed.


(** X16: the added book is on disk when the save went through: for an
    inventory kept in a file other than the log file, if the log line of
    [add_book] is "Catalog saved." and the file can be read, a fresh
    inventory on the same path holds the old books followed by the new
    one. *)
Theorem add_book_persists `{!JsonLawful} self b w self' w1 :
  file_path self <> log_file ->
  Logged.add_book self b w = (Ok self', w1) ->
  log w1 = log w ++ [Info "Catalog saved."] ->
  (forall f, files w1 !! file_path self = Some f -> readable f = true) ->
  exists w2,
    Logged.init (Some (file_path self)) w1 = (Ok self', w2) /\
    books self' = books self ++ [b].
Proof.
  intros Hpath Hadd Hlog Hread.
  destruct (logged_add_book self b w) as (entry & Hentry & Hrun).
  rewrite Hrun in Hadd. rewrite add_book_eq in Hadd, Hentry.
  simpl in Hadd, Hentry. injection Hadd as <- <-.
  set (self' := mk (file_path self) (books self ++ [b])) in *.
  simpl in Hlog. rewrite Hentry in Hlog.
  destruct (reload_after_save self' w) as [w2 Hw2].
  { by rewrite Hentry, Hlog. }
  { intros f Hf. apply Hread. simpl. by rewrite with_line_lookup_ne. }
  unfold Logged.init, init in *. simpl in *.
  destruct (logged_load_books (mk (file_path self) [])
              (append_line (log_line (log w) entry) (save_books self' w).2))
    as (entry' & _ & ->).
  rewrite load_books_append_line by done. rewrite Hw2. by eexists.
Qed.

(** X30: the log is the last thing each of [save_books], [load_books]
    and [add_book] writes: with the log in its file, a call returns what
    it returns with the log kept apart, logs the same single entry, and
    leaves the files as that call leaves them, except that the line of
    the entry has been appended to the log file. *)
Theorem log_line_comes_last self b w :
  (exists entry,
     log (save_books self w).2 = log w ++ [entry] /\
     Logged.save_books self w
     = ((save_books self w).1,
        append_line (log_line (log w) entry) (save_books self w).2))
  /\ (exists entry,
        log (load_books self w).2 = log w ++ [entry] /\
        Logged.load_books self w
        = ((load_books self w).1,
           append_line (log_line (log w) entry) (load_books self w).2))
  /\ (exists entry,
        log (add_book self b w).2 = log w ++ [entry] /\
        Logged.add_book self b w
        = ((add_book self b w).1,
           append_line (log_line (log w) entry) (add_book self b w).2)).
Proof.
  split; [|split].
  - destruct (logged_save_books self w) as (entry & ? & ->).
    exists entry. split; [done|].
    by destruct (save_books_returns self w) as [w' ->].
  - apply logged_load_books.
  - apply logged_add_book.
Qed.

End LoggedProperties.

(** C5 as it was claimed fails when the catalog is kept in the log file:
    the save goes through and says so, the file can be read, and yet a
    fresh inventory on that path has no books, because the line "Catalog
    saved." was appended to the catalog after the text of the books. *)
Lemma save_then_load_fails_on_log_file :
  exists w1 f w2,
    @Logged.save_books shelf_json sample_format shelf_in_log fresh_world
    = (Ok tt, w1) /\
    log w1 = log fresh_world ++ [Info "Catalog saved."] /\
    files w1 !! "library.log" = Some f /\
    readable f = true /\
    data f = shelf_text +:+ "2025-01-01 12:00:00,000 - INFO - Catalog saved."
             +:+ newline /\
    @Logged.init shelf_json sample_format (Some "library.log") w1
    = (Ok (LibraryInventory.mk "library.log" []), w2) /\
    LibraryInventory.books shelf_in_log = [war_and_peace; dune; warlock].
Proof.
  do 3 eexists. split; [vm_compute; reflexivity|].
  split; [reflexivity|]. split; [vm_compute; reflexivity|].
  split; [reflexivity|]. split; [vm_compute; reflexivity|].
  split; [vm_compute; reflexivity | reflexivity].
Qed.

Lemma save_then_load_witness :
  exists w2,
    @Logged.init shelf_json sample_format (Some "catalog.json")
      (@Logged.save_books shelf_json sample_format shelf fresh_world).2
    = (Ok shelf, w2).
Proof.
  refine (proj1 (@save_then_load shelf_json sample_format shelf_json_lawful
                   shelf fresh_world
                   (@Logged.save_books shelf_json sample_format shelf
                      fresh_world).2 _ _ _ _)).
  - discriminate.
  - vm_compute. reflexivity.
  - vm_compute. reflexivity.
  - intros f Hf. vm_compute in Hf. injection Hf as <-. reflexivity.
Defined.

Lemma save_books_overwrites_witness :
  exists w' f,
    @Logged.save_books empty_json sample_format shelf broken_world
    = (Ok tt, w') /\
    files w' !! LibraryInventory.file_path shelf = Some f /\
    data f = "[" /\
    writable f = true /\
    readable f = true /\
    log w'
    = log broken_world ++ [Error "Could not save catalog: " TypeError].
Proof.
  apply (@save_books_overwrites empty_json sample_format shelf broken_world).
  - discriminate.
  - vm_compute. reflexivity.
Defined.

Lemma load_books_reads_records_witness :
  exists bs,
    @Logged.load_books shelf_json sample_format
       (LibraryInventory.mk "catalog.json" [numbered]) shelf_world_with_log
    = (Ok (LibraryInventory.mk "catalog.json" bs),
       World {[ "catalog.json" := File shelf_text true true;
                "library.log" :=
                  File ("2025-01-01 12:00:00,000 - INFO - "
                        +:+ "Catalog loaded successfully." +:+ newline)
                    true true ]}
         (creatable shelf_world_with_log)
         [Info "Catalog loaded successfully."]) /\
    Forall2 record_of (Book.to_dict <$> LibraryInventory.books shelf) bs.
Proof.
  destruct (@load_books_reads_records shelf_json sample_format
              (LibraryInventory.mk "catalog.json" [numbered])
              shelf_world_with_log (File shelf_text true true)
              (Book.to_dict <$> LibraryInventory.books shelf))
    as (bs & Hrun & Hbs).
  - vm_compute. reflexivity.
  - reflexivity.
  - vm_compute. reflexivity.
  - repeat constructor.
  - exists bs. split; [|exact Hbs]. rewrite Hrun. reflexivity.
Defined.


Lemma add_book_persists_witness :
  exists w2,
    @Logged.init shelf_json sample_format (Some "catalog.json")
      (@Logged.add_book shelf_json sample_format
         (LibraryInventory.mk "catalog.json" [war_and_peace; dune])
         warlock fresh_world).2
    = (Ok shelf, w2) /\
    LibraryInventory.books shelf = [war_and_peace; dune] ++ [warlock].
Proof.
  apply (@add_book_persists shelf_json sample_format shelf_json_lawful
           (LibraryInventory.mk "catalog.json" [war_and_peace; dune])
           warlock fresh_world shelf).
  - discriminate.
  - vm_compute. reflexivity.
  - vm_compute. reflexivity.
  - intros f Hf. vm_compute in Hf. injection Hf as <-. reflexivity.
Defined.
